(** * lib_os.c: the calendar and time functions of the OS library

    A shallow embedding of [os_date], [os_time] and their helpers
    [setfield], [setboolfield], [getboolfield] and [getfield] from
    src/lib_os.c, and the properties of the formatter and of the
    calendar-record codec proved about it.

    Conventions of the embedding.
    - The Lua stack of the running C function is a list whose head is the
      slot below [L->top]; index [-1] is the head, index [1] the last
      element.
    - A Lua number is represented by the integer [lua_tointeger] reads from
      it ([lua_Number] is a double; nothing here observes a fraction).
    - A [const char *] is the [string] it points into, the terminating NUL
      being implicit at the end: [*s] is the first character or NUL, [s++]
      is the tail, and a NUL inside the string ends it for C.
    - The [int] sums [os_date] hands to [setfield] ([tm_mon+1],
      [tm_year+1900], ...) wrap modulo 2^32 as two's-complement ints do, and
      so do the conversion [(int)lua_tointeger(...)] and all [MSize]
      arithmetic; that is written out.  The differences [os_time] stores in
      its struct ([getfield(...)-1], [getfield(...)-1900]) are written in
      [Z]: they are the C values whenever they are values of [int], and the
      statements that speak of them say so.
    - The C library ([strftime], [mktime], [localtime_r], [gmtime_r],
      [time]), the buffer allocator [lj_buf_need] and the number scanner
      and printer of the VM are the fields of the class [Platform]. *)

From Stdlib Require Import ZArith Lia Ascii String.
From stdpp Require Import base numbers option list strings pretty gmap.

Set Warnings "-register-all".

Local Open Scope string_scope.
Local Open Scope Z_scope.

(** ** Values, calendar structs and the Lua state *)

(** The kinds of value the OS library only passes around: it never looks
    inside a function, a userdata, a thread, a light userdata or a cdata. *)
Inductive object_kind : Type :=
| Lightuserdata
| Function
| Userdata
| Thread
| Cdata.

(** [TValue] of lj_obj.h.  A table is kept by value, with its string keys:
    the only tables touched here are the argument of [os_time], which is
    only read, and the fresh result of [os_date]. *)
Inductive TValue : Type :=
| TNil
| TBool (b : bool)
| TNumber (n : Z)
| TString (s : string)
| TTable (t : gmap string TValue)
| TObject (k : object_kind).

(** [struct tm] of <time.h>. *)
Record tm : Type := mk_tm {
  tm_sec : Z;
  tm_min : Z;
  tm_hour : Z;
  tm_mday : Z;
  tm_mon : Z;
  tm_year : Z;
  tm_wday : Z;
  tm_yday : Z;
  tm_isdst : Z
}.

(** What the function asked of its collaborators, oldest first.  The trace is
    ghost state: the C code does not keep it, the embedding records it so
    that claims about the number and order of calls can be stated. *)
Inductive event : Type :=
| EvGetField (key : string)
| EvBufNeed (sz : Z)
| EvStrftime (maxsize : Z) (fmt : string)
| EvMktime (ts : tm).

(** The part of [lua_State] and [global_State] the OS library uses:
    the stack of the current frame, the capacity [sbufsz] of [G(L)->tmpbuf]
    and the ghost trace. *)
Record lua_State : Type := mk_State {
  stack : list TValue;
  tmpbuf : Z;
  trace : list event
}.

(** Errors thrown through [lj_err_*]. *)
Inductive lj_err : Type :=
| LJ_ERR_OSDATEF (key : string)
| LJ_ERR_ARGTYPE (narg : Z) (tname : string)
| LJ_ERR_OPINDEX
| LJ_ERR_MEM.

(** A C function either returns with a new state or throws; the state at
    the throw is kept so that what happened before it can be inspected. *)
Inductive outcome (A : Type) : Type :=
| Return (a : A) (L : lua_State)
| Throw (e : lj_err) (L : lua_State).
Arguments Return {A} a L.
Arguments Throw {A} e L.

Definition lua (A : Type) : Type := lua_State -> outcome A.

Definition ret {A : Type} (a : A) : lua A := fun L => Return a L.

Definition bind {A B : Type} (m : lua A) (k : A -> lua B) : lua B :=
  fun L => match m L with
           | Return a L' => k a L'
           | Throw e L' => Throw e L'
           end.

Definition throw {A : Type} (e : lj_err) : lua A := fun L => Throw e L.

Declare Scope lua_scope.
Delimit Scope lua_scope with lua.
Notation "x <- m ;; k" := (bind m (fun x => k))
  (at level 100, m at next level, right associativity) : lua_scope.
Notation "m ;; k" := (bind m (fun _ => k))
  (at level 100, right associativity) : lua_scope.
Local Open Scope lua_scope.

(** ** Machine integers *)

(** [MSize] is [uint32_t]. *)
Definition MSize_bits : Z := 32.
Definition MSize_wrap (z : Z) : Z := z mod 2 ^ MSize_bits.

(** The conversion to [int] of a [lua_Integer]. *)
Definition to_int (z : Z) : Z := (z + 2 ^ 31) mod 2 ^ 32 - 2 ^ 31.

(** The sum of two [int]s as the machine computes it: past [INT_MAX] it
    comes back from [INT_MIN]. *)
Definition int_add (a b : Z) : Z := to_int (a + b).

(** ** C strings *)

Definition NUL : ascii := Ascii.zero.

(** [*s] *)
Definition deref (s : string) : ascii :=
  match s with
  | EmptyString => NUL
  | String c _ => c
  end.

(** [s+1] *)
Definition advance (s : string) : string :=
  match s with
  | EmptyString => EmptyString
  | String _ q => q
  end.

(** The characters C sees through the pointer: those before the first NUL. *)
Fixpoint c_str (s : string) : string :=
  match s with
  | EmptyString => EmptyString
  | String c q => if Ascii.eqb c NUL then EmptyString else String c (c_str q)
  end.

(** [strcmp(a, b) == 0] *)
Definition strcmp_eq (a b : string) : bool := String.eqb (c_str a) (c_str b).

(** ** The stack *)

(** [index2adr] for the stack indices used here: the position in the list of
    a nonzero index, when it is inside the frame. *)
Definition index2pos (st : list TValue) (idx : Z) : option nat :=
  let n := Z.of_nat (length st) in
  if 0 <? idx then
    if idx <=? n then Some (Z.to_nat (n - idx)) else None
  else if idx <? 0 then
    if - idx <=? n then Some (Z.to_nat (- idx - 1)) else None
  else None.

Definition index2adr (st : list TValue) (idx : Z) : option TValue :=
  p ← index2pos st idx; st !! p.

Definition get_stack : lua (list TValue) := fun L => Return (stack L) L.

Definition put_stack (st : list TValue) : lua unit :=
  fun L => Return tt (mk_State st (tmpbuf L) (trace L)).

Definition log (e : event) : lua unit :=
  fun L => Return tt (mk_State (stack L) (tmpbuf L) (trace L ++ [e])).

Definition push (v : TValue) : lua unit :=
  st <- get_stack ;; put_stack (v :: st).

(** ** The Lua C API, as far as lib_os.c calls it

    lua.h and lauxlib.h are not part of src/lib_os.c; the functions below
    follow the Lua 5.1 reference manual.  Metatables are left out:
    [lua_getfield] and [lua_setfield] act on the raw table. *)

Definition LUA_TNONE : Z := -1.
Definition LUA_TNIL : Z := 0.
Definition LUA_TBOOLEAN : Z := 1.
Definition LUA_TLIGHTUSERDATA : Z := 2.
Definition LUA_TNUMBER : Z := 3.
Definition LUA_TSTRING : Z := 4.
Definition LUA_TTABLE : Z := 5.
Definition LUA_TFUNCTION : Z := 6.
Definition LUA_TUSERDATA : Z := 7.
Definition LUA_TTHREAD : Z := 8.
Definition LUA_TCDATA : Z := 10.

Definition type_of (o : option TValue) : Z :=
  match o with
  | None => LUA_TNONE
  | Some TNil => LUA_TNIL
  | Some (TBool _) => LUA_TBOOLEAN
  | Some (TNumber _) => LUA_TNUMBER
  | Some (TString _) => LUA_TSTRING
  | Some (TTable _) => LUA_TTABLE
  | Some (TObject Lightuserdata) => LUA_TLIGHTUSERDATA
  | Some (TObject Function) => LUA_TFUNCTION
  | Some (TObject Userdata) => LUA_TUSERDATA
  | Some (TObject Thread) => LUA_TTHREAD
  | Some (TObject Cdata) => LUA_TCDATA
  end.

Definition lua_type (idx : Z) : lua Z :=
  st <- get_stack ;; ret (type_of (index2adr st idx)).

Definition lua_isnil (idx : Z) : lua bool :=
  t <- lua_type idx ;; ret (t =? LUA_TNIL).

Definition lua_isnoneornil (idx : Z) : lua bool :=
  t <- lua_type idx ;; ret (t <=? 0).

(** Truthiness: everything but [nil] and [false] is true. *)
Definition truth (o : option TValue) : Z :=
  match o with
  | None | Some TNil | Some (TBool false) => 0
  | Some _ => 1
  end.

Definition lua_toboolean (idx : Z) : lua Z :=
  st <- get_stack ;; ret (truth (index2adr st idx)).

Definition lua_settop (idx : Z) : lua unit :=
  st <- get_stack ;;
  let n := Z.of_nat (length st) in
  let top := if 0 <=? idx then idx else n + idx + 1 in
  put_stack (if top <=? n then drop (Z.to_nat (n - top)) st
             else replicate (Z.to_nat (top - n)) TNil ++ st).

Definition lua_pop (n : Z) : lua unit := lua_settop (- n - 1).

Definition lua_pushnil : lua unit := push TNil.
Definition lua_pushinteger (n : Z) : lua unit := push (TNumber n).
Definition lua_pushnumber (n : Z) : lua unit := push (TNumber n).
Definition lua_pushboolean (b : Z) : lua unit := push (TBool (negb (b =? 0))).
Definition lua_createtable : lua unit := push (TTable ∅).

Definition lua_getfield (idx : Z) (key : string) : lua unit :=
  st <- get_stack ;;
  match index2adr st idx with
  | Some (TTable t) => log (EvGetField key) ;; push (default TNil (t !! key))
  | _ => throw LJ_ERR_OPINDEX
  end.

(** Pops the value and stores it under [key] in the table at [idx]; storing
    [nil] removes the key. *)
Definition lua_setfield (idx : Z) (key : string) : lua unit :=
  st <- get_stack ;;
  match st, index2pos st idx with
  | v :: st', Some (S p) =>
      match st' !! p with
      | Some (TTable t) =>
          let t' := match v with TNil => delete key t | _ => <[key := v]> t end in
          put_stack (<[p := TTable t']> st')
      | _ => throw LJ_ERR_OPINDEX
      end
  | _, _ => throw LJ_ERR_OPINDEX
  end.

Definition luaL_checktype (narg : Z) (t : Z) (tname : string) : lua unit :=
  ty <- lua_type narg ;;
  if ty =? t then ret tt else throw (LJ_ERR_ARGTYPE narg tname).

(** ** The collaborators

    What lib_os.c calls but does not define: the C library's time functions
    and the buffer and number-conversion helpers of the VM.  They are the
    fields of a class, so that the code below is generic in the platform. *)
Class Platform : Type := {
  (** [time(NULL)] *)
  time_NULL : Z;
  (** [localtime_r] and [gmtime_r]: [None] is the NULL result. *)
  localtime_r : Z -> option tm;
  gmtime_r : Z -> option tm;
  (** [mktime]: the instant, [-1] when it cannot be represented. *)
  mktime : tm -> Z;
  (** [strftime(buf, maxsize, fmt, stm)]: the characters placed in [buf]; the
      value C returns is their number, 0 when nothing could be placed. *)
  strftime : Z -> string -> tm -> string;
  (** The allocation of [lj_buf_need(sb, sz)]: from the capacity of the
      buffer and the request to its new capacity, [None] when the request
      is refused with a memory error. *)
  lj_buf_grow : Z -> Z -> option Z;
  (** [lj_strscan_number]: the number a string converts to, if any. *)
  lj_strscan_number : string -> option Z;
  (** [lj_strfmt_number]: the string a number converts to. *)
  lj_strfmt_number : Z -> string
}.

Section LibOs.

Context {P : Platform}.

(** *** More of the C API: what depends on number and string coercion *)

Definition isnumber (o : option TValue) : bool :=
  match o with
  | Some (TNumber _) => true
  | Some (TString s) => bool_decide (is_Some (lj_strscan_number s))
  | _ => false
  end.

Definition tointeger (o : option TValue) : Z :=
  match o with
  | Some (TNumber n) => n
  | Some (TString s) => default 0 (lj_strscan_number s)
  | _ => 0
  end.

Definition lua_isnumber (idx : Z) : lua bool :=
  st <- get_stack ;; ret (isnumber (index2adr st idx)).

Definition lua_tointeger (idx : Z) : lua Z :=
  st <- get_stack ;; ret (tointeger (index2adr st idx)).

Definition luaL_checknumber (narg : Z) : lua Z :=
  st <- get_stack ;;
  let o := index2adr st narg in
  if isnumber o then ret (tointeger o)
  else throw (LJ_ERR_ARGTYPE narg "number").

(** [luaL_optstring]: a number argument is converted to a string in its
    stack slot. *)
Definition luaL_optstring (narg : Z) (def : string) : lua string :=
  st <- get_stack ;;
  match index2adr st narg, index2pos st narg with
  | Some (TString s), _ => ret s
  | None, _ | Some TNil, _ => ret def
  | Some (TNumber n), Some p =>
      let s := lj_strfmt_number n in
      put_stack (<[p := TString s]> st) ;; ret s
  | _, _ => throw (LJ_ERR_ARGTYPE narg "string")
  end.

(** [luaL_opt(L, (time_t)luaL_checknumber, narg, def)] *)
Definition luaL_opt_checknumber (narg : Z) (def : Z) : lua Z :=
  none <- lua_isnoneornil narg ;;
  if none then ret def else luaL_checknumber narg.

Definition lj_err_callerv {A : Type} (e : lj_err) : lua A := throw e.

Definition lj_buf_need (sz : Z) : lua unit :=
  log (EvBufNeed sz) ;;
  fun L => match lj_buf_grow (tmpbuf L) sz with
           | Some cap => Return tt (mk_State (stack L) cap (trace L))
           | None => Throw LJ_ERR_MEM L
           end.

Definition sbufsz : lua Z := fun L => Return (tmpbuf L) L.

Definition call_strftime (maxsize : Z) (fmt : string) (stm : tm) : lua string :=
  log (EvStrftime maxsize (c_str fmt)) ;;
  ret (strftime maxsize (c_str fmt) stm).

Definition call_mktime (ts : tm) : lua Z :=
  log (EvMktime ts) ;; ret (mktime ts).

(** *** lib_os.c *)

Definition setfield (key : string) (value : Z) : lua unit :=
  lua_pushinteger value ;;
  lua_setfield (-2) key.

Definition setboolfield (key : string) (value : Z) : lua unit :=
  if value <? 0 then ret tt  (* does not set field *)
  else lua_pushboolean value ;; lua_setfield (-2) key.

Definition getboolfield (key : string) : lua Z :=
  lua_getfield (-1) key ;;
  isnil <- lua_isnil (-1) ;;
  res <- (if isnil : bool then ret (-1) else lua_toboolean (-1)) ;;
  lua_pop 1 ;;
  ret res.

Definition getfield (key : string) (d : Z) : lua Z :=
  lua_getfield (-1) key ;;
  isnum <- lua_isnumber (-1) ;;
  res <- (if isnum : bool then
            n <- lua_tointeger (-1) ;; ret (to_int n)
          else
            (if d <? 0 then lj_err_callerv (LJ_ERR_OSDATEF key) else ret tt) ;;
            ret d) ;;
  lua_pop 1 ;;
  ret res.

(** The loop [for (q = s; *q; q++)] that adds 30 to [sz] for a percent
    sign and 1 for any other character; [sz] is an [MSize]. *)
Fixpoint os_date_size (q : string) (sz : Z) : Z :=
  match q with
  | EmptyString => sz
  | String c q' =>
      if Ascii.eqb c NUL then sz
      else os_date_size q'
             (MSize_wrap (sz + (if Ascii.eqb c "%"%char then 30 else 1)))
  end.

(** [sz += (sz|1);] *)
Definition os_date_grow (sz : Z) : Z := MSize_wrap (sz + Z.lor sz 1).

(** [while (retry--) { ... }] *)
Fixpoint os_date_retry (retry : nat) (s : string) (stm : tm) (sz : Z) : lua unit :=
  match retry with
  | O => ret tt
  | S retry' =>
      lj_buf_need sz ;;
      cap <- sbufsz ;;
      buf <- call_strftime cap s stm ;;
      if (String.length buf =? 0)%nat then
        os_date_retry retry' s stm (os_date_grow sz)
      else
        (* lj_str_new(L, buf, len); lj_gc_check changes no value *)
        push (TString buf)
  end.

Definition os_date : lua Z :=
  s <- luaL_optstring 1 "%c" ;;
  t <- luaL_opt_checknumber 2 time_NULL ;;
  let utc := Ascii.eqb (deref s) "!"%char in
  let s := if utc then advance s else s in
  let stm := if utc then gmtime_r t else localtime_r t in
  match stm with
  | None => push TNil  (* Invalid date? *)
  | Some stm =>
      if strcmp_eq s "*t" then
        lua_createtable ;;
        setfield "sec" (tm_sec stm) ;;
        setfield "min" (tm_min stm) ;;
        setfield "hour" (tm_hour stm) ;;
        setfield "day" (tm_mday stm) ;;
        setfield "month" (int_add (tm_mon stm) 1) ;;
        setfield "year" (int_add (tm_year stm) 1900) ;;
        setfield "wday" (int_add (tm_wday stm) 1) ;;
        setfield "yday" (int_add (tm_yday stm) 1) ;;
        setboolfield "isdst" (tm_isdst stm)
      else if negb (Ascii.eqb (deref s) NUL) then
        (* MSize sz = 0, retry = 4; setsbufL only records L in the buffer *)
        os_date_retry 4 s stm (os_date_size s 0)
      else
        push (TString "")  (* &G(L)->strempty *)
  end ;;
  ret 1.

Definition os_time : lua Z :=
  none <- lua_isnoneornil 1 ;;
  t <- (if none : bool then ret time_NULL
        else
          luaL_checktype 1 LUA_TTABLE "table" ;;
          lua_settop 1 ;;
          sec <- getfield "sec" 0 ;;
          min <- getfield "min" 0 ;;
          hour <- getfield "hour" 12 ;;
          mday <- getfield "day" (-1) ;;
          mon <- getfield "month" (-1) ;;
          year <- getfield "year" (-1) ;;
          isdst <- getboolfield "isdst" ;;
          (* tm_wday and tm_yday are not set by the code and not read by
             mktime; they stand as 0.  mon - 1 and year - 1900 are the C
             differences whenever these are values of int. *)
          call_mktime (mk_tm sec min hour mday (mon - 1) (year - 1900) 0 0 isdst)) ;;
  (if t =? -1 then lua_pushnil else lua_pushnumber t) ;;
  ret 1.

End LibOs.

(** ** A reference platform

    One concrete platform, used to run the code on examples: a POSIX system
    in the UTC zone, in a locale whose AM/PM designations are empty (as in
    de_DE), with the growth policy of lj_buf.c for the temporary buffer and
    a scanner that accepts plain decimal numerals. *)
Module Reference.

Definition INT_MAX : Z := 2147483647.
Definition INT_MIN : Z := -2147483648.

(** Days since 1970-01-01 to (year, month 1..12, day 1..31) in the
    proleptic Gregorian calendar, and back. *)
Definition civil_from_days (days : Z) : Z * Z * Z :=
  let z := days + 719468 in
  let era := z / 146097 in
  let doe := z - era * 146097 in
  let yoe := (doe - doe / 1460 + doe / 36524 - doe / 146096) / 365 in
  let doy := doe - (365 * yoe + yoe / 4 - yoe / 100) in
  let mp := (5 * doy + 2) / 153 in
  let d := doy - (153 * mp + 2) / 5 + 1 in
  let m := if mp <? 10 then mp + 3 else mp - 9 in
  (yoe + era * 400 + (if m <=? 2 then 1 else 0), m, d).

Definition days_from_civil (y m d : Z) : Z :=
  let y := if m <=? 2 then y - 1 else y in
  let era := y / 400 in
  let yoe := y - era * 400 in
  let doy := (153 * (if 2 <? m then m - 3 else m + 9) + 2) / 5 + d - 1 in
  era * 146097 + (yoe * 365 + yoe / 4 - yoe / 100 + doy) - 719468.

(** NULL when the year does not fit [tm_year]. *)
Definition gmtime (t : Z) : option tm :=
  let days := t / 86400 in
  let secs := t mod 86400 in
  let '(y, m, d) := civil_from_days days in
  if (INT_MIN <=? y - 1900) && (y - 1900 <=? INT_MAX) then
    Some (mk_tm (secs mod 60) (secs / 60 mod 60) (secs / 3600)
                d (m - 1) (y - 1900)
                ((days + 4) mod 7) (days - days_from_civil y 1 1) 0)
  else None.

(** Months outside 0..11 and days outside the month carry over. *)
Definition timegm (ts : tm) : Z :=
  let y := tm_year ts + 1900 + tm_mon ts / 12 in
  let m := tm_mon ts mod 12 + 1 in
  (days_from_civil y m 1 + (tm_mday ts - 1)) * 86400
  + tm_hour ts * 3600 + tm_min ts * 60 + tm_sec ts.

(** The text of a format: ordinary characters stand for themselves, [%%] is a
    percent sign, [%Y] the year, [%n] a newline, [%p] the (empty) AM/PM
    designation; any other conversion is copied as it is. *)
Fixpoint expand (fmt : string) (stm : tm) : string :=
  match fmt with
  | EmptyString => EmptyString
  | String c q =>
      if Ascii.eqb c "%"%char then
        match q with
        | EmptyString => String c EmptyString
        | String k q' =>
            (if Ascii.eqb k "%"%char then "%"
             else if Ascii.eqb k "Y"%char then pretty (tm_year stm + 1900)
             else if Ascii.eqb k "n"%char then String (ascii_of_nat 10) EmptyString
             else if Ascii.eqb k "p"%char then ""
             else String c (String k EmptyString))
            +:+ expand q' stm
        end
      else String c (expand q stm)
  end.

(** The text is placed only if it fits together with its terminating NUL. *)
Definition strftime_C (maxsize : Z) (fmt : string) (stm : tm) : string :=
  let out := expand fmt stm in
  if Z.of_nat (String.length out) <? maxsize then out else "".

Definition LJ_MIN_SBUF : Z := 32.
Definition LJ_MAX_BUF : Z := 2147483392.  (* 0x7fffff00 *)

Fixpoint double_until (fuel : nat) (nsz sz : Z) : Z :=
  match fuel with
  | O => nsz
  | S fuel' => if nsz <? sz then double_until fuel' (nsz + nsz) sz else nsz
  end.

(** The buffer is kept when it is large enough; otherwise its capacity, at
    least [LJ_MIN_SBUF], is doubled until the request fits. *)
Definition buf_grow (cap sz : Z) : option Z :=
  if sz <=? cap then Some cap
  else if LJ_MAX_BUF <? sz then None
  else Some (double_until 32 (Z.max cap LJ_MIN_SBUF) sz).

Definition digit_of (c : ascii) : option Z :=
  let n := Z.of_nat (nat_of_ascii c) in
  if (48 <=? n) && (n <=? 57) then Some (n - 48) else None.

Fixpoint scan_digits (s : string) (acc : Z) : option Z :=
  match s with
  | EmptyString => Some acc
  | String c q =>
      match digit_of c with
      | Some d => scan_digits q (10 * acc + d)
      | None => None
      end
  end.

Definition scan_decimal (s : string) : option Z :=
  match s with
  | EmptyString => None
  | _ => scan_digits s 0
  end.

Definition platform : Platform := {|
  time_NULL := 1700000000;
  localtime_r := gmtime;
  gmtime_r := gmtime;
  mktime := timegm;
  strftime := strftime_C;
  lj_buf_grow := buf_grow;
  lj_strscan_number := scan_decimal;
  lj_strfmt_number := pretty
|}.

End Reference.

(** The values a C function hands back when it returns [n]: the [n] slots
    below the top of the stack, the last result first. *)
Definition results {A : Type} (o : outcome A) (n : nat) : option (list TValue) :=
  match o with
  | Return _ L => Some (take n (stack L))
  | Throw _ _ => None
  end.

Definition final {A : Type} (o : outcome A) : lua_State :=
  match o with
  | Return _ L => L
  | Throw _ L => L
  end.

Definition strftime_calls (tr : list event) : list (Z * string) :=
  omap (fun e => match e with EvStrftime m f => Some (m, f) | _ => None end) tr.

Definition buf_requests (tr : list event) : list Z :=
  omap (fun e => match e with EvBufNeed sz => Some sz | _ => None end) tr.

Definition mktime_calls (tr : list event) : list tm :=
  omap (fun e => match e with EvMktime ts => Some ts | _ => None end) tr.

Definition fields_read (tr : list event) : list string :=
  omap (fun e => match e with EvGetField k => Some k | _ => None end) tr.

Definition state0 (args : list TValue) : lua_State := mk_State args 0 [].


(** The value [lua_getfield] pushes for [key]: [nil] for an absent key. *)
Definition field (tb : gmap string TValue) (key : string) : TValue :=
  default TNil (tb !! key).

(** What [os_time] makes of a record, written on the table instead of on
    the stack; the theorems below relate the code to it. *)
Definition usable {P : Platform} (tb : gmap string TValue) (key : string) : bool :=
  isnumber (Some (field tb key)).

Definition read_int {P : Platform} (tb : gmap string TValue) (key : string) (d : Z) : Z :=
  if usable tb key then to_int (tointeger (Some (field tb key))) else d.

Definition read_bool (tb : gmap string TValue) (key : string) : Z :=
  match field tb key with
  | TNil => -1
  | v => truth (Some v)
  end.

Definition compose_tm {P : Platform} (tb : gmap string TValue) : tm :=
  mk_tm (read_int tb "sec" 0) (read_int tb "min" 0) (read_int tb "hour" 12)
        (read_int tb "day" (-1)) (read_int tb "month" (-1) - 1)
        (read_int tb "year" (-1) - 1900) 0 0 (read_bool tb "isdst").

(** The fields [os_time] cannot do without, in the order it reads them. *)
Definition required : list string := ["day"; "month"; "year"].

(** The keys [os_time] reads up to and including [key]. *)
Definition read_upto (key : string) : list string :=
  if String.eqb key "day" then ["sec"; "min"; "hour"; "day"]
  else if String.eqb key "month" then ["sec"; "min"; "hour"; "day"; "month"]
  else ["sec"; "min"; "hour"; "day"; "month"; "year"].

Definition read_all : list string :=
  ["sec"; "min"; "hour"; "day"; "month"; "year"; "isdst"].

(** The pattern and the calendar struct [os_date] works on once a leading
    exclamation mark has been looked at. *)
Definition date_utc (p : string) : bool := Ascii.eqb (deref p) "!"%char.

Definition date_fmt (p : string) : string :=
  if date_utc p then advance p else p.

Definition date_tm {P : Platform} (p : string) (t : Z) : option tm :=
  if date_utc p then gmtime_r t else localtime_r t.

(** The record [os_date] makes of a calendar struct: the nine fields, the
    sums taken in [int], [isdst] only when it is determined. *)
Definition calendar_record (stm : tm) : gmap string TValue :=
  let r : gmap string TValue :=
    <["yday" := TNumber (int_add (tm_yday stm) 1)]>
    (<["wday" := TNumber (int_add (tm_wday stm) 1)]>
    (<["year" := TNumber (int_add (tm_year stm) 1900)]>
    (<["month" := TNumber (int_add (tm_mon stm) 1)]>
    (<["day" := TNumber (tm_mday stm)]>
    (<["hour" := TNumber (tm_hour stm)]>
    (<["min" := TNumber (tm_min stm)]>
    (<["sec" := TNumber (tm_sec stm)]> ∅))))))) in
  if tm_isdst stm <? 0 then r
  else <["isdst" := TBool (negb (tm_isdst stm =? 0))]> r.

(** The sizes a retry loop asks for when it starts at [sz] and every attempt
    fails: [n] iterations of the growth step. *)
Fixpoint iterates (n : nat) (sz : Z) : list Z :=
  match n with
  | O => []
  | S n' => sz :: iterates n' (os_date_grow sz)
  end.

(** The estimate the specification describes: 30 for a percent sign, 1 for
    any other character, summed without a bound. *)
Fixpoint pattern_weight (s : string) : Z :=
  match s with
  | EmptyString => 0
  | String c q => (if Ascii.eqb c "%"%char then 30 else 1) + pattern_weight q
  end.

Fixpoint percent_free (s : string) : bool :=
  match s with
  | EmptyString => true
  | String c q => negb (Ascii.eqb c "%"%char) && percent_free q
  end.

(** A string of [n] copies of one character. *)
Fixpoint rep_char (n : nat) (c : ascii) : string :=
  match n with
  | O => EmptyString
  | S n' => String c (rep_char n' c)
  end.

(** What a caller can observe of a call: the error if it threw, the result
    if it returned one value, and what was asked of the collaborators. *)
Definition error_of {A : Type} (o : outcome A) : option lj_err :=
  match o with
  | Return _ _ => None
  | Throw e _ => Some e
  end.

Definition observe {A : Type} (o : outcome A) : option lj_err * option (list TValue) * list event :=
  (error_of o, results o 1, trace (final o)).

(** ** The rest of lib_os.c that is modelled, and what is compared *)

(** [luaL_optnumber(L, narg, def)] *)
Definition luaL_optnumber {P : Platform} (narg : Z) (def : Z) : lua Z :=
  none <- lua_isnoneornil narg ;;
  if none : bool then ret def else luaL_checknumber narg.

Section OsDifftime.

Context {P : Platform}.

(** [difftime] of <time.h>: the seconds from the second instant to the
    first, as the number that is pushed. *)
Variable difftime : Z -> Z -> Z.

(** C leaves open which argument of [difftime] is evaluated first; the first
    one is read first here, and the properties stated of [os_difftime] do not
    depend on that order. *)
Definition os_difftime : lua Z :=
  a <- luaL_checknumber 1 ;;
  b <- luaL_optnumber 2 0 ;;
  lua_pushnumber (difftime a b) ;;
  ret 1.

End OsDifftime.

(** The values of [int]. *)
Definition int_range (n : Z) : Prop := - 2 ^ 31 <= n < 2 ^ 31.

(** The field [key] of the table a call left on top of the stack. *)
Definition top_field {A : Type} (o : outcome A) (key : string) : option TValue :=
  match stack (final o) with
  | TTable r :: _ => r !! key
  | _ => None
  end.

(** The capacities [strftime] was given, call by call. *)
Definition strftime_capacities (tr : list event) : list Z :=
  (strftime_calls tr).*1.

(** The values a double converts to a [lua_Integer] of 64 bits. *)
Definition integer_range (n : Z) : Prop := - 2 ^ 63 <= n < 2 ^ 63.

Definition value_of {A : Type} (o : outcome A) : option A :=
  match o with
  | Return a _ => Some a
  | Throw _ _ => None
  end.

(** Two calls, started on the stacks [st1] and [st2], did the same: they
    returned the same value or threw the same error, asked the same of the
    collaborators, left the temporary buffer at the same capacity and
    pushed the same values on the stack they were given. *)
Definition same_effect {A : Type}
    (st1 : list TValue) (o1 : outcome A) (st2 : list TValue) (o2 : outcome A) : Prop :=
  value_of o1 = value_of o2 /\
  error_of o1 = error_of o2 /\
  trace (final o1) = trace (final o2) /\
  tmpbuf (final o1) = tmpbuf (final o2) /\
  exists pushed : list TValue,
    stack (final o1) = (pushed ++ st1)%list /\
    stack (final o2) = (pushed ++ st2)%list.

(** The platform whose local time is UTC. *)
Definition utc_platform (P : Platform) : Platform := {|
  time_NULL := time_NULL;
  localtime_r := gmtime_r;
  gmtime_r := gmtime_r;
  mktime := mktime;
  strftime := strftime;
  lj_buf_grow := lj_buf_grow;
  lj_strscan_number := lj_strscan_number;
  lj_strfmt_number := lj_strfmt_number
|}.

(** A trace made of render attempts only: each is a request to the buffer
    followed by a call of [strftime] with a capacity that covers the
    request; a last request may stand alone, when the buffer refused it. *)
Fixpoint attempts_fit (tr : list event) : bool :=
  match tr with
  | [] => true
  | EvBufNeed sz :: rest =>
      match rest with
      | [] => true
      | EvStrftime cap _ :: rest' => (sz <=? cap) && attempts_fit rest'
      | _ => false
      end
  | _ => false
  end.

(** A calendar struct whose fields, as [os_date] writes them into a record,
    are values of [int]. *)
Definition tm_fits (stm : tm) : Prop :=
  int_range (tm_sec stm) /\ int_range (tm_min stm) /\ int_range (tm_hour stm) /\
  int_range (tm_mday stm) /\ int_range (tm_mon stm + 1) /\
  int_range (tm_year stm + 1900).

(** The flag [os_time] reads back from the [isdst] a record was given. *)
Definition isdst_read_back (raw : Z) : Z :=
  if raw <? 0 then -1 else if raw =? 0 then 0 else 1.

(** * Properties *)

(** ** The stack *)

Lemma index2pos_top v st : index2pos (v :: st) (-1) = Some 0%nat.
Proof.
  unfold index2pos. cbn [length].
  replace (0 <? -1) with false by reflexivity.
  replace (-1 <? 0) with true by reflexivity.
  replace (- -1) with 1 by reflexivity.
  destruct (Z.leb_spec 1 (Z.of_nat (S (length st)))) as [_|Hlt]; [reflexivity | lia].
Qed.

Lemma index2adr_top v st : index2adr (v :: st) (-1) = Some v.
Proof. unfold index2adr. rewrite index2pos_top. reflexivity. Qed.

Lemma index2pos_second v w st : index2pos (v :: w :: st) (-2) = Some 1%nat.
Proof.
  unfold index2pos. cbn [length].
  replace (0 <? -2) with false by reflexivity.
  replace (-2 <? 0) with true by reflexivity.
  replace (- -2) with 2 by reflexivity.
  destruct (Z.leb_spec 2 (Z.of_nat (S (S (length st))))) as [_|Hlt]; [reflexivity | lia].
Qed.

Lemma lua_pop_1 v st b tr :
  lua_pop 1 (mk_State (v :: st) b tr) = Return tt (mk_State st b tr).
Proof.
  unfold lua_pop, lua_settop, bind, get_stack, put_stack. cbn [stack tmpbuf trace length].
  change (- (1) - 1) with (-2). change (0 <=? -2) with false. cbv iota zeta.
  set (n := Z.of_nat (S (length st))).
  assert (Hn : 0 < n) by (unfold n; lia).
  destruct (Z.leb_spec (n + -2 + 1) n) as [_|Hlt]; [|lia].
  replace (n - (n + -2 + 1)) with 1 by lia. reflexivity.
Qed.

(** Runs a computation on an explicit state: the monad is unfolded and the
    stack accesses at the top of the stack are resolved. *)
Ltac run :=
  repeat (progress (cbv [bind ret throw get_stack put_stack log push
                         stack tmpbuf trace];
                    rewrite ?index2adr_top, ?index2pos_second)).

Lemma bind_unfold {A B : Type} (m : lua A) (k : A -> lua B) (L : lua_State) :
  bind m k L = match m L with
               | Return a L' => k a L'
               | Throw e L' => Throw e L'
               end.
Proof. reflexivity. Qed.

(** One step of a computation run on an explicit state: the binds are
    opened down to the first call, which [lem] describes. *)
Ltac step lem :=
  rewrite ?bind_unfold; rewrite lem by lia; cbv beta iota.

Lemma lua_isnoneornil_table tb b tr :
  lua_isnoneornil 1 (mk_State [TTable tb] b tr) = Return false (mk_State [TTable tb] b tr).
Proof. reflexivity. Qed.

Lemma luaL_checktype_table tb b tr :
  luaL_checktype 1 LUA_TTABLE "table" (mk_State [TTable tb] b tr)
  = Return tt (mk_State [TTable tb] b tr).
Proof. reflexivity. Qed.

Lemma lua_settop_1 v b tr :
  lua_settop 1 (mk_State [v] b tr) = Return tt (mk_State [v] b tr).
Proof. reflexivity. Qed.

(** ** Reading the trace *)

Lemma buf_requests_app tr1 tr2 :
  buf_requests (tr1 ++ tr2) = (buf_requests tr1 ++ buf_requests tr2)%list.
Proof. apply omap_app. Qed.

Lemma strftime_calls_app tr1 tr2 :
  strftime_calls (tr1 ++ tr2) = (strftime_calls tr1 ++ strftime_calls tr2)%list.
Proof. apply omap_app. Qed.

Lemma mktime_calls_app tr1 tr2 :
  mktime_calls (tr1 ++ tr2) = (mktime_calls tr1 ++ mktime_calls tr2)%list.
Proof. apply omap_app. Qed.

Lemma fields_read_app tr1 tr2 :
  fields_read (tr1 ++ tr2) = (fields_read tr1 ++ fields_read tr2)%list.
Proof. apply omap_app. Qed.

Section Codec.

Context {P : Platform}.

(** ** Reading a field *)

Lemma getfield_run key d tb st b tr :
  getfield key d (mk_State (TTable tb :: st) b tr) =
  let v := field tb key in
  let tr' := (tr ++ [EvGetField key])%list in
  if isnumber (Some v) then
    Return (to_int (tointeger (Some v))) (mk_State (TTable tb :: st) b tr')
  else if d <? 0 then
    Throw (LJ_ERR_OSDATEF key) (mk_State (v :: TTable tb :: st) b tr')
  else Return d (mk_State (TTable tb :: st) b tr').
Proof.
  unfold getfield, lua_getfield, lua_isnumber, lua_tointeger, lj_err_callerv.
  run. fold (field tb key).
  destruct (isnumber (Some (field tb key))); run.
  - rewrite lua_pop_1. reflexivity.
  - destruct (d <? 0); run; [reflexivity|]. rewrite lua_pop_1. reflexivity.
Qed.

Lemma getboolfield_run key tb st b tr :
  getboolfield key (mk_State (TTable tb :: st) b tr) =
  Return (read_bool tb key)
         (mk_State (TTable tb :: st) b (tr ++ [EvGetField key])).
Proof.
  unfold read_bool, getboolfield, lua_getfield, lua_isnil, lua_toboolean, lua_type.
  run. fold (field tb key).
  destruct (field tb key) as [|[]| | | |[]]; cbn -[lua_pop index2adr]; run;
    rewrite lua_pop_1; reflexivity.
Qed.

Lemma getfield_default key d tb st b tr :
  0 <= d ->
  getfield key d (mk_State (TTable tb :: st) b tr) =
  Return (read_int tb key d)
         (mk_State (TTable tb :: st) b (tr ++ [EvGetField key])).
Proof.
  intros Hd. rewrite getfield_run. cbv zeta. unfold read_int, usable.
  destruct (isnumber (Some (field tb key))); [reflexivity|].
  destruct (Z.ltb_spec d 0); [lia | reflexivity].
Qed.

Lemma getfield_required key tb st b tr :
  getfield key (-1) (mk_State (TTable tb :: st) b tr) =
  if usable tb key then
    Return (read_int tb key (-1))
           (mk_State (TTable tb :: st) b (tr ++ [EvGetField key]))
  else
    Throw (LJ_ERR_OSDATEF key)
          (mk_State (field tb key :: TTable tb :: st) b (tr ++ [EvGetField key])).
Proof.
  rewrite getfield_run. cbv zeta. unfold read_int, usable.
  destruct (isnumber (Some (field tb key))); reflexivity.
Qed.

(** ** [os_time] on a record, step by step *)

Lemma os_time_run tb b tr :
  os_time (mk_State [TTable tb] b tr) =
  if negb (usable tb "day") then
    Throw (LJ_ERR_OSDATEF "day")
          (mk_State [field tb "day"; TTable tb] b
                    (tr ++ map EvGetField (read_upto "day")))
  else if negb (usable tb "month") then
    Throw (LJ_ERR_OSDATEF "month")
          (mk_State [field tb "month"; TTable tb] b
                    (tr ++ map EvGetField (read_upto "month")))
  else if negb (usable tb "year") then
    Throw (LJ_ERR_OSDATEF "year")
          (mk_State [field tb "year"; TTable tb] b
                    (tr ++ map EvGetField (read_upto "year")))
  else
    let t := mktime (compose_tm tb) in
    Return 1 (mk_State [if t =? -1 then TNil else TNumber t; TTable tb] b
                       (tr ++ map EvGetField read_all ++ [EvMktime (compose_tm tb)])).
Proof.
  unfold os_time.
  step lua_isnoneornil_table. step luaL_checktype_table. step lua_settop_1.
  step getfield_default. step getfield_default. step getfield_default.
  step getfield_required.
  destruct (usable tb "day"); cbn [negb];
    [|rewrite <- !app_assoc; reflexivity].
  step getfield_required.
  destruct (usable tb "month"); cbn [negb];
    [|rewrite <- !app_assoc; reflexivity].
  step getfield_required.
  destruct (usable tb "year"); cbn [negb];
    [|rewrite <- !app_assoc; reflexivity].
  step getboolfield_run.
  unfold call_mktime. run.
  change (mk_tm _ _ _ _ _ _ _ _ _) with (compose_tm tb).
  rewrite <- !app_assoc.
  destruct (mktime (compose_tm tb) =? -1); reflexivity.
Qed.

Lemma usable_absent tb key : tb !! key = None -> usable tb key = false.
Proof. intros H. unfold usable, field. rewrite H. reflexivity. Qed.

Lemma read_int_unusable tb key d : usable tb key = false -> read_int tb key d = d.
Proof. intros H. unfold read_int. rewrite H. reflexivity. Qed.

Lemma read_bool_absent tb key : tb !! key = None -> read_bool tb key = -1.
Proof. intros H. unfold read_bool, field. rewrite H. reflexivity. Qed.

Lemma mktime_calls_getfields ks : mktime_calls (map EvGetField ks) = [].
Proof. induction ks as [|k ks IH]; [reflexivity | exact IH]. Qed.

Lemma fields_read_getfields ks : fields_read (map EvGetField ks) = ks.
Proof. induction ks as [|k ks IH]; [reflexivity | cbn; f_equal; exact IH]. Qed.

Lemma in_required key :
  key ∈ required <-> key = "day" \/ key = "month" \/ key = "year".
Proof.
  unfold required. rewrite !elem_of_cons, elem_of_nil. tauto.
Qed.

(** C2: a record without [day], [month] or [year] makes [os_time] throw
    the error that names a field it could not read, the very field when it
    is the only one amiss, and [mktime] is not reached; with the three
    fields there, absent [sec], [min], [hour] and [isdst] reach [mktime] as
    0, 0, 12 and -1. *)
Theorem os_time_required_and_defaults tb b tr :
  let o := os_time (mk_State [TTable tb] b tr) in
  (forall key, key ∈ required -> tb !! key = None ->
     exists k L',
       o = Throw (LJ_ERR_OSDATEF k) L' /\
       k ∈ required /\ usable tb k = false /\
       mktime_calls (trace L') = mktime_calls tr /\
       ((forall k', k' ∈ required -> k' <> key -> usable tb k' = true) -> k = key))
  /\
  (usable tb "day" = true -> usable tb "month" = true -> usable tb "year" = true ->
     exists L' ts,
       o = Return 1 L' /\
       mktime_calls (trace L') = (mktime_calls tr ++ [ts])%list /\
       (tb !! "sec" = None -> tm_sec ts = 0) /\
       (tb !! "min" = None -> tm_min ts = 0) /\
       (tb !! "hour" = None -> tm_hour ts = 12) /\
       (tb !! "isdst" = None -> tm_isdst ts = -1)).
Proof.
  intros o. subst o. rewrite os_time_run. split.
  - intros key Hkey Habs. apply usable_absent in Habs.
    destruct (usable tb "day") eqn:Hd; cbn [negb].
    2:{ eexists "day", _. split; [reflexivity|]. split; [apply in_required; tauto|].
        split; [exact Hd|]. split.
        - cbn [trace]. rewrite mktime_calls_app, mktime_calls_getfields, app_nil_r.
          reflexivity.
        - intros Hall. destruct (String.eqb_spec "day" key) as [e|ne]; [exact e|].
          rewrite (Hall "day") in Hd; [discriminate| apply in_required; tauto | exact ne]. }
    destruct (usable tb "month") eqn:Hm; cbn [negb].
    2:{ eexists "month", _. split; [reflexivity|]. split; [apply in_required; tauto|].
        split; [exact Hm|]. split.
        - cbn [trace]. rewrite mktime_calls_app, mktime_calls_getfields, app_nil_r.
          reflexivity.
        - intros Hall. destruct (String.eqb_spec "month" key) as [e|ne]; [exact e|].
          rewrite (Hall "month") in Hm; [discriminate| apply in_required; tauto | exact ne]. }
    destruct (usable tb "year") eqn:Hy; cbn [negb].
    2:{ eexists "year", _. split; [reflexivity|]. split; [apply in_required; tauto|].
        split; [exact Hy|]. split.
        - cbn [trace]. rewrite mktime_calls_app, mktime_calls_getfields, app_nil_r.
          reflexivity.
        - intros Hall. destruct (String.eqb_spec "year" key) as [e|ne]; [exact e|].
          rewrite (Hall "year") in Hy; [discriminate| apply in_required; tauto | exact ne]. }
    apply in_required in Hkey. destruct Hkey as [->|[->| ->]]; congruence.
  - intros Hd Hm Hy. rewrite Hd, Hm, Hy. cbn [negb]. cbv zeta.
    eexists _, (compose_tm tb). split; [reflexivity|]. split.
    + cbn [trace]. rewrite !mktime_calls_app, mktime_calls_getfields. reflexivity.
    + cbn [compose_tm tm_sec tm_min tm_hour tm_isdst].
      repeat split; intros Habs.
      * apply read_int_unusable, usable_absent, Habs.
      * apply read_int_unusable, usable_absent, Habs.
      * apply read_int_unusable, usable_absent, Habs.
      * apply read_bool_absent, Habs.
Qed.

(** C8: [os_time] reads sec, min, hour, day, month, year, isdst in that
    order; it throws for the first of day, month, year it cannot read, so a
    record without the three reports day, and it throws before [mktime] is
    called. *)
Theorem os_time_reads_in_order tb b tr :
  let o := os_time (mk_State [TTable tb] b tr) in
  match o with
  | Return n L' =>
      n = 1 /\
      (usable tb "day" = true /\ usable tb "month" = true /\ usable tb "year" = true) /\
      fields_read (trace L')
      = (fields_read tr ++ ["sec"; "min"; "hour"; "day"; "month"; "year"; "isdst"])%list /\
      length (mktime_calls (trace L')) = S (length (mktime_calls tr))
  | Throw e L' =>
      exists k,
        e = LJ_ERR_OSDATEF k /\ k ∈ required /\ usable tb k = false /\
        (k = "month" -> usable tb "day" = true) /\
        (k = "year" -> usable tb "day" = true /\ usable tb "month" = true) /\
        fields_read (trace L') = (fields_read tr ++ read_upto k)%list /\
        last (read_upto k) = Some k /\
        (exists later, read_all = (read_upto k ++ later)%list) /\
        mktime_calls (trace L') = mktime_calls tr
  end
  /\ (tb !! "day" = None -> error_of o = Some (LJ_ERR_OSDATEF "day"))
  /\ (usable tb "day" = true -> tb !! "month" = None ->
      error_of o = Some (LJ_ERR_OSDATEF "month"))
  /\ (usable tb "day" = true -> usable tb "month" = true -> tb !! "year" = None ->
      error_of o = Some (LJ_ERR_OSDATEF "year")).
Proof.
  intros o. subst o. rewrite os_time_run.
  assert (Hlog : forall ks,
             fields_read (tr ++ map EvGetField ks) = (fields_read tr ++ ks)%list /\
             mktime_calls (tr ++ map EvGetField ks) = mktime_calls tr).
  { intros ks. rewrite fields_read_app, fields_read_getfields,
      mktime_calls_app, mktime_calls_getfields, app_nil_r. split; reflexivity. }
  destruct (usable tb "day") eqn:Hd; cbn [negb].
  2:{ split; [exists "day"; cbn [trace]; destruct (Hlog (read_upto "day"))|];
        repeat split; intros;
        try discriminate; try assumption; try reflexivity;
        try (apply in_required; tauto); try (eexists; reflexivity). }
  destruct (usable tb "month") eqn:Hm; cbn [negb].
  2:{ split; [exists "month"; cbn [trace]; destruct (Hlog (read_upto "month"))|];
        repeat split; intros;
        try discriminate; try assumption; try reflexivity;
        try (apply in_required; tauto); try (eexists; reflexivity);
        repeat match goal with
          | H : tb !! _ = None |- _ => apply usable_absent in H
          end; congruence. }
  destruct (usable tb "year") eqn:Hy; cbn [negb].
  2:{ split; [exists "year"; cbn [trace]; destruct (Hlog (read_upto "year"))|];
        repeat split; intros;
        try discriminate; try assumption; try reflexivity;
        try (apply in_required; tauto); try (eexists; reflexivity);
        repeat match goal with
          | H : tb !! _ = None |- _ => apply usable_absent in H
          end; congruence. }
  cbv zeta. cbn [trace error_of]. split.
  - rewrite !app_assoc, fields_read_app, mktime_calls_app.
    destruct (Hlog read_all) as [-> ->]. cbn. rewrite app_nil_r, length_app.
    repeat split. cbn. lia.
  - repeat split; intros; repeat match goal with
      | H : tb !! _ = None |- _ => apply usable_absent in H
      end; congruence.
Qed.

(** C9: [os_time] turns [isdst] into the flag of [mktime] by truthiness: -1
    for an absent field, 0 for [false], 1 for any other value, the number 0
    included. *)
Theorem os_time_isdst_by_truthiness tb b tr :
  usable tb "day" = true -> usable tb "month" = true -> usable tb "year" = true ->
  exists L' ts,
    os_time (mk_State [TTable tb] b tr) = Return 1 L' /\
    mktime_calls (trace L') = (mktime_calls tr ++ [ts])%list /\
    tm_isdst ts = match tb !! "isdst" with
                  | None | Some TNil => -1
                  | Some (TBool false) => 0
                  | Some _ => 1
                  end /\
    (tb !! "isdst" = Some (TNumber 0) -> tm_isdst ts = 1).
Proof.
  intros Hd Hm Hy. rewrite os_time_run, Hd, Hm, Hy. cbn [negb]. cbv zeta.
  eexists _, (compose_tm tb). split; [reflexivity|]. split.
  - cbn [trace]. rewrite !mktime_calls_app, mktime_calls_getfields. reflexivity.
  - cbn [compose_tm tm_isdst]. unfold read_bool, field.
    split; [|intros ->; reflexivity].
    destruct (tb !! "isdst") as [[|[]| | | |]|]; reflexivity.
Qed.

Lemma field_delete_ne tb key k : k <> key -> field (delete key tb) k = field tb k.
Proof. intros Hne. unfold field. rewrite lookup_delete_ne by congruence. reflexivity. Qed.

Lemma field_delete_eq tb key : field (delete key tb) key = TNil.
Proof. unfold field. rewrite lookup_delete_eq. reflexivity. Qed.

Lemma usable_delete tb key k :
  usable tb key = false -> usable (delete key tb) k = usable tb k.
Proof.
  intros Hun. unfold usable. destruct (decide (k = key)) as [->|Hne].
  - rewrite field_delete_eq. symmetry. exact Hun.
  - rewrite field_delete_ne by exact Hne. reflexivity.
Qed.

Lemma read_int_delete tb key k d :
  usable tb key = false -> read_int (delete key tb) k d = read_int tb k d.
Proof.
  intros Hun. unfold read_int. rewrite (usable_delete tb key k Hun).
  destruct (decide (k = key)) as [->|Hne].
  - rewrite Hun. reflexivity.
  - rewrite field_delete_ne by exact Hne. reflexivity.
Qed.

Lemma compose_tm_delete tb key :
  usable tb key = false -> key <> "isdst" ->
  compose_tm (delete key tb) = compose_tm tb.
Proof.
  intros Hun Hne. unfold compose_tm. rewrite !(read_int_delete tb key) by exact Hun.
  unfold read_bool. rewrite field_delete_ne by congruence. reflexivity.
Qed.

(** C10, as amended: a field of [sec], [min], [hour], [day], [month],
    [year] whose value [lua_isnumber] rejects, that is neither a number nor
    a string that converts to one, is treated by [os_time] as the absent
    field: the caller observes the same error or the same result and the
    same calls as for the record without the key, the default standing in
    for an optional field and the error being thrown for a required one. *)
Theorem os_time_rejected_value_as_absent tb key v b tr :
  key ∈ ["sec"; "min"; "hour"; "day"; "month"; "year"] ->
  tb !! key = Some v -> isnumber (Some v) = false ->
  observe (os_time (mk_State [TTable tb] b tr))
  = observe (os_time (mk_State [TTable (delete key tb)] b tr)) /\
  (forall d, read_int tb key d = d) /\
  (key ∈ required ->
   exists k L', os_time (mk_State [TTable tb] b tr) = Throw (LJ_ERR_OSDATEF k) L' /\
                k ∈ required /\ usable tb k = false).
Proof.
  intros Hkey Hv Hnum.
  assert (Hun : usable tb key = false)
    by (unfold usable, field; rewrite Hv; exact Hnum).
  assert (Hne : key <> "isdst").
  { intros ->. revert Hkey. rewrite !elem_of_cons, elem_of_nil.
    intros [H|[H|[H|[H|[H|[H|[]]]]]]]; discriminate H. }
  split; [|split].
  - rewrite !os_time_run, !(usable_delete tb key) by exact Hun.
    rewrite (compose_tm_delete tb key Hun Hne).
    destruct (usable tb "day"); [|reflexivity].
    destruct (usable tb "month"); [|reflexivity].
    destruct (usable tb "year"); reflexivity.
  - intros d. apply read_int_unusable, Hun.
  - intros Hreq. rewrite os_time_run.
    destruct (usable tb "day") eqn:Hd; cbn [negb];
      [|eexists "day", _; repeat split; [apply in_required; tauto | exact Hd]].
    destruct (usable tb "month") eqn:Hm; cbn [negb];
      [|eexists "month", _; repeat split; [apply in_required; tauto | exact Hm]].
    destruct (usable tb "year") eqn:Hy; cbn [negb];
      [|eexists "year", _; repeat split; [apply in_required; tauto | exact Hy]].
    apply in_required in Hreq. destruct Hreq as [->|[->| ->]]; congruence.
Qed.

End Codec.

(** ** C strings and the size estimate *)

Lemma c_str_empty s : c_str s = "" -> Ascii.eqb (deref s) NUL = true.
Proof.
  destruct s as [|c q]; [reflexivity|]. cbn [c_str deref].
  destruct (Ascii.eqb c NUL); [reflexivity | discriminate].
Qed.

Lemma c_str_nonempty s : c_str s <> "" -> Ascii.eqb (deref s) NUL = false.
Proof.
  destruct s as [|c q]; [intros H; contradiction H; reflexivity|].
  cbn [c_str deref]. destruct (Ascii.eqb c NUL); [intros H; contradiction H|]; reflexivity.
Qed.

Lemma MSize_wrap_add_l a w : MSize_wrap (MSize_wrap a + w) = MSize_wrap (a + w).
Proof. unfold MSize_wrap. apply Zplus_mod_idemp_l. Qed.

(** The loop computes the weight of the C string, in [MSize]. *)
Lemma os_date_size_wrap q :
  forall a, os_date_size q (MSize_wrap a) = MSize_wrap (a + pattern_weight (c_str q)).
Proof.
  induction q as [|c q IH]; intros a; cbn [os_date_size c_str pattern_weight].
  - rewrite Z.add_0_r. reflexivity.
  - destruct (Ascii.eqb c NUL); cbn [pattern_weight].
    + rewrite Z.add_0_r. reflexivity.
    + rewrite MSize_wrap_add_l, IH. f_equal. lia.
Qed.

Lemma pattern_weight_length s : Z.of_nat (String.length s) <= pattern_weight s.
Proof.
  induction s as [|c q IH]; cbn [String.length pattern_weight]; [lia|].
  destruct (Ascii.eqb c "%"); lia.
Qed.

Lemma pattern_weight_percent_free s :
  percent_free s = true -> pattern_weight s = Z.of_nat (String.length s).
Proof.
  induction s as [|c q IH]; cbn [String.length pattern_weight percent_free]; [reflexivity|].
  destruct (Ascii.eqb c "%"); cbn [negb andb]; [discriminate|].
  intros H. rewrite (IH H). lia.
Qed.

Lemma rep_char_length n c : String.length (rep_char n c) = n.
Proof. induction n as [|n IH]; cbn [rep_char String.length]; congruence. Qed.

Lemma c_str_rep_char n c : Ascii.eqb c NUL = false -> c_str (rep_char n c) = rep_char n c.
Proof.
  intros Hc. induction n as [|n IH]; cbn [rep_char c_str]; [reflexivity|].
  rewrite Hc, IH. reflexivity.
Qed.

Lemma pattern_weight_percents n :
  pattern_weight (rep_char n "%") = 30 * Z.of_nat n.
Proof.
  induction n as [|n IH]; [reflexivity|].
  cbn [rep_char pattern_weight]. rewrite IH.
  change (Ascii.eqb "%" "%") with true. cbv iota. lia.
Qed.

Lemma os_date_size_mod s :
  os_date_size s 0 = pattern_weight (c_str s) mod 2 ^ 32.
Proof.
  change 0 with (MSize_wrap 0) at 1. rewrite os_date_size_wrap. reflexivity.
Qed.

Lemma os_date_size_exact s :
  pattern_weight (c_str s) < 2 ^ 32 ->
  os_date_size s 0 = pattern_weight (c_str s).
Proof.
  intros Hlt. rewrite os_date_size_mod. apply Z.mod_small.
  pose proof (pattern_weight_length (c_str s)). lia.
Qed.

(** C5, as amended: the first size [os_date] asks for is the sum, over the
    characters of the pattern, of 30 for a percent sign and 1 for any other
    character, reduced modulo 2^32, the width of [MSize]; it is the sum
    itself, and then at least the length of the pattern and at least 1 for a
    pattern that is not empty, whenever the sum is below 2^32. *)
Theorem os_date_size_estimate s :
  os_date_size s 0 = pattern_weight (c_str s) mod 2 ^ 32 /\
  (pattern_weight (c_str s) < 2 ^ 32 ->
   os_date_size s 0 = pattern_weight (c_str s) /\
   Z.of_nat (String.length (c_str s)) <= os_date_size s 0 /\
   (c_str s <> "" -> 1 <= os_date_size s 0)).
Proof.
  split; [apply os_date_size_mod|]. intros Hlt.
  pose proof (pattern_weight_length (c_str s)) as Hlen.
  rewrite (os_date_size_exact s Hlt). split; [reflexivity|]. split; [exact Hlen|].
  intros Hne. destruct (c_str s) as [|c q]; [contradiction Hne; reflexivity|].
  cbn [String.length] in Hlen. lia.
Qed.

Lemma int_add_exact a b : int_range (a + b) -> int_add a b = a + b.
Proof.
  unfold int_range, int_add, to_int. intros H.
  rewrite Z.mod_small by lia. lia.
Qed.

Section Formatter.

Context {P : Platform}.

(** ** Filling the record of [os_date] *)

Lemma setfield_run key v r st b tr :
  setfield key v (mk_State (TTable r :: st) b tr) =
  Return tt (mk_State (TTable (<[key := TNumber v]> r) :: st) b tr).
Proof. unfold setfield, lua_pushinteger, lua_setfield. run. reflexivity. Qed.

Lemma setboolfield_run key v r st b tr :
  setboolfield key v (mk_State (TTable r :: st) b tr) =
  Return tt (mk_State (TTable (if v <? 0 then r
                               else <[key := TBool (negb (v =? 0))]> r) :: st) b tr).
Proof.
  unfold setboolfield, lua_pushboolean, lua_setfield.
  destruct (v <? 0); run; reflexivity.
Qed.

Lemma luaL_optstring_str t p b tr :
  luaL_optstring 1 "%c" (mk_State [TNumber t; TString p] b tr)
  = Return p (mk_State [TNumber t; TString p] b tr).
Proof. reflexivity. Qed.

Lemma luaL_opt_checknumber_num t p b tr :
  luaL_opt_checknumber 2 time_NULL (mk_State [TNumber t; TString p] b tr)
  = Return t (mk_State [TNumber t; TString p] b tr).
Proof. reflexivity. Qed.

Lemma lua_createtable_run st b tr :
  lua_createtable (mk_State st b tr) = Return tt (mk_State (TTable ∅ :: st) b tr).
Proof. reflexivity. Qed.

(** ** [os_date] on a pattern and an instant, branch by branch *)

Lemma os_date_run t p b tr :
  os_date (mk_State [TNumber t; TString p] b tr) =
  match date_tm p t with
  | None => Return 1 (mk_State [TNil; TNumber t; TString p] b tr)
  | Some stm =>
      if strcmp_eq (date_fmt p) "*t" then
        Return 1 (mk_State [TTable (calendar_record stm); TNumber t; TString p] b tr)
      else if negb (Ascii.eqb (deref (date_fmt p)) NUL) then
        match os_date_retry 4 (date_fmt p) stm (os_date_size (date_fmt p) 0)
                            (mk_State [TNumber t; TString p] b tr) with
        | Return _ L' => Return 1 L'
        | Throw e L' => Throw e L'
        end
      else Return 1 (mk_State [TString ""; TNumber t; TString p] b tr)
  end.
Proof.
  unfold os_date.
  step luaL_optstring_str. step luaL_opt_checknumber_num. cbv zeta.
  unfold date_tm, date_fmt, date_utc.
  set (s := if Ascii.eqb (deref p) "!" then advance p else p).
  destruct (if Ascii.eqb (deref p) "!" then gmtime_r t else localtime_r t) as [stm|];
    [|reflexivity].
  destruct (strcmp_eq s "*t").
  - step lua_createtable_run. do 8 (step setfield_run).
    rewrite setboolfield_run. reflexivity.
  - destruct (negb (Ascii.eqb (deref s) NUL)); [|reflexivity].
    rewrite bind_unfold. reflexivity.
Qed.

(** ** The retry loop *)

Lemma os_date_retry_S retry s stm sz st b tr :
  os_date_retry (S retry) s stm sz (mk_State st b tr) =
  match lj_buf_grow b sz with
  | None => Throw LJ_ERR_MEM (mk_State st b (tr ++ [EvBufNeed sz]))
  | Some cap =>
      let tr' := (tr ++ [EvBufNeed sz; EvStrftime cap (c_str s)])%list in
      let buf := strftime cap (c_str s) stm in
      if (String.length buf =? 0)%nat then
        os_date_retry retry s stm (os_date_grow sz) (mk_State st cap tr')
      else Return tt (mk_State (TString buf :: st) cap tr')
  end.
Proof.
  cbn [os_date_retry]. unfold lj_buf_need, sbufsz, call_strftime. run.
  destruct (lj_buf_grow b sz) as [cap|]; [|reflexivity].
  rewrite <- !app_assoc. cbn [app].
  destruct (String.length (strftime cap (c_str s) stm) =? 0)%nat; reflexivity.
Qed.

(** Whatever the renderer answers, the sizes asked of the buffer are the
    iterates of the growth step, one per attempt. *)
Lemma os_date_retry_requests s stm retry :
  forall sz st b tr,
  exists n : nat,
    (n <= retry)%nat /\
    buf_requests (trace (final (os_date_retry retry s stm sz (mk_State st b tr))))
    = (buf_requests tr ++ iterates n sz)%list /\
    (length (strftime_calls
               (trace (final (os_date_retry retry s stm sz (mk_State st b tr))))) <=
     length (strftime_calls tr) + n)%nat.
Proof.
  induction retry as [|retry IH]; intros sz st b tr.
  - exists 0%nat. cbn [os_date_retry iterates]. unfold ret. cbn [final trace].
    rewrite app_nil_r. split; [lia|]. split; [reflexivity|lia].
  - rewrite os_date_retry_S.
    destruct (lj_buf_grow b sz) as [cap|].
    + cbv zeta.
      destruct (String.length (strftime cap (c_str s) stm) =? 0)%nat.
      * destruct (IH (os_date_grow sz) st cap
                     (tr ++ [EvBufNeed sz; EvStrftime cap (c_str s)])%list)
          as (n & Hn & Hreq & Hcalls).
        exists (S n). split; [lia|]. rewrite Hreq. split.
        -- rewrite buf_requests_app, <- app_assoc. reflexivity.
        -- etrans; [exact Hcalls|]. rewrite strftime_calls_app, length_app.
           cbn. lia.
      * exists 1%nat. cbn [final trace]. split; [lia|].
        rewrite buf_requests_app, strftime_calls_app, length_app.
        split; [reflexivity|cbn; lia].
    + exists 1%nat. cbn [final trace]. split; [lia|].
      rewrite buf_requests_app, strftime_calls_app, length_app.
      split; [reflexivity|cbn; lia].
Qed.

(** When the renderer answers 0 whatever the capacity, the loop gives up
    after [retry] attempts and leaves the stack as it found it. *)
Lemma os_date_retry_all_zero s stm (Hz : forall cap, strftime cap (c_str s) stm = "") retry :
  forall sz st b tr,
  match os_date_retry retry s stm sz (mk_State st b tr) with
  | Return _ L' =>
      stack L' = st /\
      length (strftime_calls (trace L')) = (length (strftime_calls tr) + retry)%nat
  | Throw e L' => e = LJ_ERR_MEM /\ stack L' = st
  end.
Proof.
  induction retry as [|retry IH]; intros sz st b tr.
  - cbn [os_date_retry]. unfold ret. cbn [stack trace]. split; [reflexivity|lia].
  - rewrite os_date_retry_S.
    destruct (lj_buf_grow b sz) as [cap|]; [|split; reflexivity].
    cbv zeta. rewrite Hz. cbn [String.length Nat.eqb].
    specialize (IH (os_date_grow sz) st cap
                   (tr ++ [EvBufNeed sz; EvStrftime cap (c_str s)])%list).
    destruct (os_date_retry retry s stm (os_date_grow sz) _) as [u L'|e L'];
      [|exact IH].
    destruct IH as [Hst Hlen]. split; [exact Hst|].
    rewrite Hlen, strftime_calls_app, length_app. cbn. lia.
Qed.

Lemma os_date_retry_extends s stm retry :
  forall sz st b tr,
  exists ext,
    trace (final (os_date_retry retry s stm sz (mk_State st b tr))) = (tr ++ ext)%list.
Proof.
  induction retry as [|retry IH]; intros sz st b tr.
  - exists []. cbn [os_date_retry]. unfold ret. cbn [final trace].
    rewrite app_nil_r. reflexivity.
  - rewrite os_date_retry_S. destruct (lj_buf_grow b sz) as [cap|];
      [|eexists; reflexivity].
    cbv zeta. destruct (String.length (strftime cap (c_str s) stm) =? 0)%nat;
      [|eexists; reflexivity].
    destruct (IH (os_date_grow sz) st cap
                 (tr ++ [EvBufNeed sz; EvStrftime cap (c_str s)])%list) as [ext Hext].
    rewrite Hext, <- app_assoc. eexists; reflexivity.
Qed.

Lemma os_date_retry_first_request s stm retry sz st b tr :
  exists rest,
    trace (final (os_date_retry (S retry) s stm sz (mk_State st b tr)))
    = (tr ++ EvBufNeed sz :: rest)%list.
Proof.
  rewrite os_date_retry_S. destruct (lj_buf_grow b sz) as [cap|];
    [|eexists; reflexivity].
  cbv zeta. destruct (String.length (strftime cap (c_str s) stm) =? 0)%nat;
    [|eexists; reflexivity].
  destruct (os_date_retry_extends s stm retry (os_date_grow sz) st cap
              (tr ++ [EvBufNeed sz; EvStrftime cap (c_str s)])%list) as [ext Hext].
  rewrite Hext, <- app_assoc. eexists; reflexivity.
Qed.

Lemma iterates_length n sz : length (iterates n sz) = n.
Proof. revert sz. induction n as [|n IH]; intros sz; cbn [iterates length]; congruence. Qed.

Lemma iterates_step n :
  forall sz (i : nat) a a',
    iterates n sz !! i = Some a -> iterates n sz !! S i = Some a' ->
    a' = os_date_grow a.
Proof.
  induction n as [|n IH]; intros sz i a a'; cbn [iterates]; [discriminate|].
  destruct i as [|i]; cbn [lookup list_lookup].
  - intros [= <-]. destruct n as [|n]; cbn [iterates lookup list_lookup];
      [discriminate|]. intros [= <-]. reflexivity.
  - apply IH.
Qed.

Lemma strcmp_star_t s : c_str s <> "*t" -> strcmp_eq s "*t" = false.
Proof. intros H. unfold strcmp_eq. apply String.eqb_neq. exact H. Qed.

Lemma final_os_date_text t p b tr stm :
  date_tm p t = Some stm -> c_str (date_fmt p) <> "" -> c_str (date_fmt p) <> "*t" ->
  os_date (mk_State [TNumber t; TString p] b tr) =
  match os_date_retry 4 (date_fmt p) stm (os_date_size (date_fmt p) 0)
                      (mk_State [TNumber t; TString p] b tr) with
  | Return _ L' => Return 1 L'
  | Throw e L' => Throw e L'
  end.
Proof.
  intros Htm Hne Hstar. rewrite os_date_run, Htm, (strcmp_star_t _ Hstar),
    (c_str_nonempty _ Hne). reflexivity.
Qed.

(** C3, as amended: for an instant the conversion accepts, [os_date] with
    the pattern [*t] returns a record whose [sec], [min], [hour] and [day]
    are those of the struct and whose [month], [wday], [yday] and [year] are
    the raw value plus 1, 1, 1 and 1900, the sum being taken in [int]: it is
    the sum itself whenever that is a value of [int], and the sum wrapped
    modulo 2^32 otherwise; [isdst] is a boolean when the raw flag is not
    negative and is absent when it is; the record has no other field. *)
Theorem os_date_table_fields t p b tr stm :
  date_tm p t = Some stm -> c_str (date_fmt p) = "*t" ->
  exists r : gmap string TValue,
    os_date (mk_State [TNumber t; TString p] b tr)
    = Return 1 (mk_State [TTable r; TNumber t; TString p] b tr) /\
    r !! "sec" = Some (TNumber (tm_sec stm)) /\
    r !! "min" = Some (TNumber (tm_min stm)) /\
    r !! "hour" = Some (TNumber (tm_hour stm)) /\
    r !! "day" = Some (TNumber (tm_mday stm)) /\
    r !! "month" = Some (TNumber (int_add (tm_mon stm) 1)) /\
    r !! "year" = Some (TNumber (int_add (tm_year stm) 1900)) /\
    r !! "wday" = Some (TNumber (int_add (tm_wday stm) 1)) /\
    r !! "yday" = Some (TNumber (int_add (tm_yday stm) 1)) /\
    (int_range (tm_mon stm + 1) ->
     r !! "month" = Some (TNumber (tm_mon stm + 1))) /\
    (int_range (tm_year stm + 1900) ->
     r !! "year" = Some (TNumber (tm_year stm + 1900))) /\
    (int_range (tm_wday stm + 1) ->
     r !! "wday" = Some (TNumber (tm_wday stm + 1))) /\
    (int_range (tm_yday stm + 1) ->
     r !! "yday" = Some (TNumber (tm_yday stm + 1))) /\
    r !! "isdst" = (if tm_isdst stm <? 0 then None
                    else Some (TBool (negb (tm_isdst stm =? 0)))) /\
    (forall k : string,
       k ∉ ["sec"; "min"; "hour"; "day"; "month"; "year"; "wday"; "yday"; "isdst"] ->
       r !! k = None).
Proof.
  intros Htm Hstar. exists (calendar_record stm). split.
  - rewrite os_date_run, Htm. unfold strcmp_eq. rewrite Hstar. reflexivity.
  - unfold calendar_record. cbv zeta.
    destruct (tm_isdst stm <? 0);
      repeat split;
      try (intros Hfit; rewrite <- (int_add_exact _ _ Hfit));
      try (repeat (rewrite lookup_insert_ne by discriminate);
           first [apply lookup_insert_eq | apply lookup_empty]).
    all: intros k Hk; repeat (rewrite lookup_insert_ne
                                by (intros <-; apply Hk; set_solver));
      apply lookup_empty.
Qed.

(** C6, as amended: for an empty pattern, a leading exclamation mark
    stripped, [os_date] returns the empty string when the conversion accepts
    the instant and nil when it does not; in both cases [strftime] is not
    called and the retry loop is not entered. *)
Theorem os_date_empty_pattern t p b tr :
  c_str (date_fmt p) = "" ->
  os_date (mk_State [TNumber t; TString p] b tr)
  = Return 1 (mk_State [match date_tm p t with
                        | Some _ => TString ""
                        | None => TNil
                        end; TNumber t; TString p] b tr) /\
  trace (final (os_date (mk_State [TNumber t; TString p] b tr))) = tr.
Proof.
  intros Hempty.
  assert (Hrun : os_date (mk_State [TNumber t; TString p] b tr)
                 = Return 1 (mk_State [match date_tm p t with
                                       | Some _ => TString ""
                                       | None => TNil
                                       end; TNumber t; TString p] b tr)).
  { rewrite os_date_run. destruct (date_tm p t) as [stm|]; [|reflexivity].
    unfold strcmp_eq. rewrite Hempty, (c_str_empty _ Hempty). reflexivity. }
  split; [exact Hrun|]. rewrite Hrun. reflexivity.
Qed.

(** C1, what the code does: when [strftime] answers 0 at every attempt,
    [os_date] makes its four attempts and returns 1 without having pushed
    anything, so that the value handed back is the argument on top of the
    stack and not an empty string. *)
Theorem os_date_all_attempts_zero t p b tr stm :
  date_tm p t = Some stm ->
  c_str (date_fmt p) <> "" -> c_str (date_fmt p) <> "*t" ->
  (forall cap, strftime cap (c_str (date_fmt p)) stm = "") ->
  match os_date (mk_State [TNumber t; TString p] b tr) with
  | Return n L' =>
      n = 1 /\ stack L' = [TNumber t; TString p] /\
      length (strftime_calls (trace L')) = (length (strftime_calls tr) + 4)%nat /\
      take 1 (stack L') = [TNumber t]
  | Throw e _ => e = LJ_ERR_MEM
  end.
Proof.
  intros Htm Hne Hstar Hz. rewrite (final_os_date_text t p b tr stm Htm Hne Hstar).
  pose proof (os_date_retry_all_zero (date_fmt p) stm Hz 4
                (os_date_size (date_fmt p) 0) [TNumber t; TString p] b tr) as H.
  destruct (os_date_retry 4 (date_fmt p) stm _ _) as [u L'|e L'].
  - destruct H as [Hst Hlen]. rewrite Hst. repeat split; assumption.
  - apply H.
Qed.

Lemma strftime_capacities_attempt sz cap f pre :
  strftime_capacities (EvBufNeed sz :: EvStrftime cap f :: pre)
  = cap :: strftime_capacities pre.
Proof. reflexivity. Qed.

Lemma default_last_cons (b x : Z) l : default b (last (x :: l)) = default x (last l).
Proof. rewrite last_cons. destruct (last l); reflexivity. Qed.

(** The loop, attempt by attempt: it starts with a request of [sz]; an
    attempt that answered 0 while attempts remain is followed by the request
    of the grown size; and [strftime] is given the capacity the buffer has
    after the request. *)
Lemma os_date_retry_steps s stm retry :
  forall sz st b tr,
  exists ext,
    trace (final (os_date_retry retry s stm sz (mk_State st b tr))) = (tr ++ ext)%list /\
    ((0 < retry)%nat -> exists rest, ext = EvBufNeed sz :: rest) /\
    (forall pre z cap rest,
       ext = (pre ++ EvBufNeed z :: EvStrftime cap (c_str s) :: rest)%list ->
       strftime cap (c_str s) stm = "" ->
       (S (length (strftime_calls pre)) < retry)%nat ->
       exists rest', rest = EvBufNeed (os_date_grow z) :: rest') /\
    (forall pre z cap f rest,
       ext = (pre ++ EvBufNeed z :: EvStrftime cap f :: rest)%list ->
       lj_buf_grow (default b (last (strftime_capacities pre))) z = Some cap).
Proof.
  induction retry as [|retry IH]; intros sz st b tr.
  - exists []. cbn [os_date_retry]. unfold ret. cbn [final trace].
    rewrite app_nil_r. split; [reflexivity|]. split; [lia|].
    split; intros pre z cap; intros; destruct pre; discriminate.
  - rewrite os_date_retry_S. destruct (lj_buf_grow b sz) as [cap0|] eqn:Hcap.
    2:{ exists [EvBufNeed sz]. cbn [final trace]. split; [reflexivity|].
        split; [intros _; eexists; reflexivity|].
        split; intros pre z cap; intros; destruct pre as [|e1 [|e2 pre]];
          discriminate. }
    cbv zeta.
    destruct (String.length (strftime cap0 (c_str s) stm) =? 0)%nat eqn:Hlen.
    + destruct (IH (os_date_grow sz) st cap0
                   (tr ++ [EvBufNeed sz; EvStrftime cap0 (c_str s)])%list)
        as (ext & Htr & Hfirst & Hnext & Hgiven).
      exists (EvBufNeed sz :: EvStrftime cap0 (c_str s) :: ext).
      rewrite Htr, <- app_assoc. split; [reflexivity|].
      split; [intros _; eexists; reflexivity|]. split.
      * intros pre z cap rest Heq Hz Hlt. destruct pre as [|e1 [|e2 pre]].
        -- injection Heq; intros; subst. apply Hfirst. cbn in Hlt. lia.
        -- discriminate Heq.
        -- injection Heq; intros; subst. apply (Hnext pre z cap rest eq_refl Hz).
           change (strftime_calls (EvBufNeed sz :: EvStrftime cap0 (c_str s) :: pre))
             with ((cap0, c_str s) :: strftime_calls pre) in Hlt.
           cbn [length] in Hlt. lia.
      * intros pre z cap f rest Heq. destruct pre as [|e1 [|e2 pre]].
        -- injection Heq; intros; subst. exact Hcap.
        -- discriminate Heq.
        -- injection Heq; intros; subst.
           rewrite strftime_capacities_attempt, default_last_cons.
           apply (Hgiven pre z cap f rest eq_refl).
    + exists [EvBufNeed sz; EvStrftime cap0 (c_str s)]. cbn [final trace].
      split; [reflexivity|]. split; [intros _; eexists; reflexivity|]. split.
      * intros pre z cap rest Heq Hz Hlt. destruct pre as [|e1 [|e2 pre]].
        -- injection Heq; intros; subst. rewrite Hz in Hlen. discriminate Hlen.
        -- discriminate Heq.
        -- injection Heq; intros Hnil; intros. destruct pre; discriminate Hnil.
      * intros pre z cap f rest Heq. destruct pre as [|e1 [|e2 pre]].
        -- injection Heq; intros; subst. exact Hcap.
        -- discriminate Heq.
        -- injection Heq; intros Hnil; intros. destruct pre; discriminate Hnil.
Qed.

(** C4, as amended: the retry loop of [os_date] starts by asking the buffer
    for the estimate; every attempt that answers 0, while fewer than four
    attempts have been made, is followed by a request of the size grown by
    [sz + (sz | 1)] modulo 2^32; no other size is asked for, at most four in
    all.  What [strftime] is given is not that size but the capacity the
    buffer has once [lj_buf_need] has served the request. *)
Theorem os_date_requests_grow t p b tr stm :
  date_tm p t = Some stm ->
  c_str (date_fmt p) <> "" -> c_str (date_fmt p) <> "*t" ->
  exists ext : list event,
    trace (final (os_date (mk_State [TNumber t; TString p] b tr))) = (tr ++ ext)%list /\
    (exists rest, ext = EvBufNeed (os_date_size (date_fmt p) 0) :: rest) /\
    (length (buf_requests ext) <= 4)%nat /\
    (forall (i : nat) sz sz',
       buf_requests ext !! i = Some sz -> buf_requests ext !! S i = Some sz' ->
       sz' = (sz + Z.lor sz 1) mod 2 ^ 32) /\
    (forall pre sz cap rest,
       ext = (pre ++ EvBufNeed sz :: EvStrftime cap (c_str (date_fmt p)) :: rest)%list ->
       strftime cap (c_str (date_fmt p)) stm = "" ->
       (length (strftime_calls pre) < 3)%nat ->
       exists rest', rest = EvBufNeed ((sz + Z.lor sz 1) mod 2 ^ 32) :: rest') /\
    (forall pre sz cap f rest,
       ext = (pre ++ EvBufNeed sz :: EvStrftime cap f :: rest)%list ->
       lj_buf_grow (default b (last (strftime_capacities pre))) sz = Some cap).
Proof.
  intros Htm Hne Hstar. rewrite (final_os_date_text t p b tr stm Htm Hne Hstar).
  destruct (os_date_retry_requests (date_fmt p) stm 4 (os_date_size (date_fmt p) 0)
              [TNumber t; TString p] b tr) as (n & Hn & Hreq & _).
  destruct (os_date_retry_steps (date_fmt p) stm 4 (os_date_size (date_fmt p) 0)
              [TNumber t; TString p] b tr) as (ext & Htr & Hfirst & Hnext & Hgiven).
  assert (Hfin : forall o : outcome unit,
             final (match o with
                    | Return _ L' => Return 1 L'
                    | Throw e L' => Throw e L'
                    end) = final o) by (intros [u L'|e L']; reflexivity).
  rewrite Hfin. exists ext. split; [exact Htr|].
  rewrite Htr, buf_requests_app in Hreq. apply app_inv_head in Hreq.
  split; [apply Hfirst; lia|]. rewrite Hreq, iterates_length.
  split; [exact Hn|]. split.
  - intros i sz sz' H1 H2. apply (iterates_step _ _ _ _ _ H1 H2).
  - split; [|exact Hgiven].
    intros pre sz cap rest Heq Hz Hlt. apply (Hnext pre sz cap rest Heq Hz). lia.
Qed.

(** C7, as amended: for a pattern without percent sign that is neither
    empty nor [*t], [os_date] first asks for as many bytes as the pattern has
    characters.  [strftime] needs one byte more, for the terminating NUL: the
    first attempt succeeds, and is the only call of [strftime], when the
    buffer handed out is larger than the pattern; when its capacity is
    exactly the length of the pattern, the first attempt answers 0 and a
    second, grown request follows. *)
Theorem os_date_literal_pattern t p b tr stm cap :
  (forall m f tm0, percent_free f = true ->
     strftime m f tm0 = if Z.of_nat (String.length f) <? m then f else "") ->
  date_tm p t = Some stm ->
  c_str (date_fmt p) <> "" -> c_str (date_fmt p) <> "*t" ->
  percent_free (c_str (date_fmt p)) = true ->
  Z.of_nat (String.length (c_str (date_fmt p))) < 2 ^ 32 ->
  lj_buf_grow b (Z.of_nat (String.length (c_str (date_fmt p)))) = Some cap ->
  let fmt := c_str (date_fmt p) in
  let len := Z.of_nat (String.length fmt) in
  os_date_size (date_fmt p) 0 = len /\
  (len < cap ->
   os_date (mk_State [TNumber t; TString p] b tr)
   = Return 1 (mk_State [TString fmt; TNumber t; TString p] cap
                        (tr ++ [EvBufNeed len; EvStrftime cap fmt]))) /\
  (cap <= len ->
   exists rest,
     trace (final (os_date (mk_State [TNumber t; TString p] b tr)))
     = (tr ++ [EvBufNeed len; EvStrftime cap fmt; EvBufNeed (os_date_grow len)]
           ++ rest)%list).
Proof.
  intros Hlit Htm Hne Hstar Hfree Hlen Hgrow fmt len. subst len fmt.
  assert (Hsize : os_date_size (date_fmt p) 0
                  = Z.of_nat (String.length (c_str (date_fmt p)))).
  { rewrite os_date_size_exact;
      rewrite pattern_weight_percent_free by exact Hfree; [reflexivity | exact Hlen]. }
  split; [exact Hsize|].
  rewrite (final_os_date_text t p b tr stm Htm Hne Hstar), Hsize.
  change 4%nat with (S 3). rewrite os_date_retry_S, Hgrow. cbv zeta.
  rewrite (Hlit cap _ stm Hfree).
  split; intros Hcap.
  - destruct (Z.ltb_spec (Z.of_nat (String.length (c_str (date_fmt p)))) cap)
      as [_|Hge]; [|lia].
    destruct (c_str (date_fmt p)) as [|c q]; [contradiction Hne; reflexivity|].
    reflexivity.
  - destruct (Z.ltb_spec (Z.of_nat (String.length (c_str (date_fmt p)))) cap)
      as [Hlt|_]; [lia|].
    cbn [String.length Nat.eqb].
    destruct (os_date_retry_first_request (date_fmt p) stm 2
                (os_date_grow (Z.of_nat (String.length (c_str (date_fmt p)))))
                [TNumber t; TString p] cap
                (tr ++ [EvBufNeed (Z.of_nat (String.length (c_str (date_fmt p))));
                        EvStrftime cap (c_str (date_fmt p))])%list) as [rest Hrest].
    exists rest.
    destruct (os_date_retry 3 (date_fmt p) stm _ _) as [u L'|e L'];
      cbn [final] in Hrest |- *; rewrite Hrest, <- app_assoc; reflexivity.
Qed.

End Formatter.

(** * The code run on the reference platform *)

Lemma expand_percent_free f stm :
  percent_free f = true -> Reference.expand f stm = f.
Proof.
  induction f as [|c q IH]; cbn [percent_free Reference.expand]; [reflexivity|].
  destruct (Ascii.eqb c "%"); cbn [negb andb]; [discriminate|].
  intros H. rewrite (IH H). reflexivity.
Qed.

(** The reference [strftime] treats a pattern without conversions as C
    specifies: the text is the pattern, and it needs room for its NUL. *)
Lemma strftime_C_literal m f stm :
  percent_free f = true ->
  strftime (Platform := Reference.platform) m f stm
  = if Z.of_nat (String.length f) <? m then f else "".
Proof.
  intros H. cbn [strftime Reference.platform]. unfold Reference.strftime_C.
  rewrite (expand_percent_free f stm H). reflexivity.
Qed.

(** The failing input of C1: in a locale without AM/PM designations
    [os.date("%p", 951782400)] hands back its second argument. *)
Lemma os_date_percent_p_hands_back_argument :
  results (os_date (P := Reference.platform)
             (state0 [TNumber 951782400; TString "%p"])) 1
  = Some [TNumber 951782400].
Proof. vm_compute. reflexivity. Qed.

Lemma os_date_all_attempts_zero_witness :
  match os_date (P := Reference.platform)
          (mk_State [TNumber 951782400; TString "%p"] 0 []) with
  | Return n L' =>
      n = 1 /\ stack L' = [TNumber 951782400; TString "%p"] /\
      length (strftime_calls (trace L')) = (length (strftime_calls []) + 4)%nat /\
      take 1 (stack L') = [TNumber 951782400]
  | Throw e _ => e = LJ_ERR_MEM
  end.
Proof.
  eapply (os_date_all_attempts_zero (P := Reference.platform)).
  - reflexivity.
  - discriminate.
  - discriminate.
  - intros cap. cbn [strftime Reference.platform]. unfold Reference.strftime_C.
    change (Reference.expand (c_str (date_fmt "%p")) _) with "".
    destruct (Z.of_nat (String.length "") <? cap); reflexivity.
Defined.

Lemma os_time_required_and_defaults_witness :
  (exists k L',
     os_time (P := Reference.platform)
       (mk_State [TTable (<["hour" := TNumber 5]> ∅)] 0 [])
     = Throw (LJ_ERR_OSDATEF k) L' /\ k ∈ required /\
     mktime_calls (trace L') = []) /\
  (exists k L',
     os_time (P := Reference.platform)
       (mk_State [TTable (<["hour" := TNumber 5]>
                          (<["month" := TNumber 2]>
                          (<["year" := TNumber 2024]> ∅)))] 0 [])
     = Throw (LJ_ERR_OSDATEF k) L' /\ k = "day" /\
     mktime_calls (trace L') = []) /\
  (exists L' ts,
     os_time (P := Reference.platform)
       (mk_State [TTable (<["day" := TNumber 1]>
                          (<["month" := TNumber 2]>
                          (<["year" := TNumber 2024]> ∅)))] 0 [])
     = Return 1 L' /\
     mktime_calls (trace L') = [ts] /\
     tm_sec ts = 0 /\ tm_min ts = 0 /\ tm_hour ts = 12 /\ tm_isdst ts = -1).
Proof.
  split; [|split].
  - destruct (proj1 (os_time_required_and_defaults (P := Reference.platform)
                       (<["hour" := TNumber 5]> ∅) 0 []) "day")
      as (k & L' & Hrun & Hk & _ & Hcalls & _).
    + apply in_required. left. reflexivity.
    + reflexivity.
    + exists k, L'. split; [exact Hrun|]. split; [exact Hk | exact Hcalls].
  - destruct (proj1 (os_time_required_and_defaults (P := Reference.platform)
                       (<["hour" := TNumber 5]>
                        (<["month" := TNumber 2]>
                        (<["year" := TNumber 2024]> ∅))) 0 []) "day")
      as (k & L' & Hrun & _ & _ & Hcalls & Hname).
    + apply in_required. left. reflexivity.
    + reflexivity.
    + exists k, L'. split; [exact Hrun|]. split; [|exact Hcalls].
      apply Hname. intros k' Hk' Hne. apply in_required in Hk'.
      destruct Hk' as [->|[->| ->]]; [contradiction Hne|..]; reflexivity.
  - destruct (proj2 (os_time_required_and_defaults (P := Reference.platform)
                       (<["day" := TNumber 1]>
                        (<["month" := TNumber 2]>
                        (<["year" := TNumber 2024]> ∅))) 0 []))
      as (L' & ts & Hrun & Hcalls & Hsec & Hmin & Hhour & Hdst);
      try reflexivity.
    exists L', ts. split; [exact Hrun|]. split; [exact Hcalls|].
    split; [apply Hsec; reflexivity|]. split; [apply Hmin; reflexivity|].
    split; [apply Hhour; reflexivity | apply Hdst; reflexivity].
Defined.

Lemma os_date_table_fields_witness :
  exists r : gmap string TValue,
    os_date (P := Reference.platform)
      (mk_State [TNumber 951782400; TString "*t"] 0 [])
    = Return 1 (mk_State [TTable r; TNumber 951782400; TString "*t"] 0 []) /\
    r !! "sec" = Some (TNumber 0) /\ r !! "min" = Some (TNumber 0) /\
    r !! "hour" = Some (TNumber 0) /\ r !! "day" = Some (TNumber 29) /\
    r !! "month" = Some (TNumber 2) /\ r !! "year" = Some (TNumber 2000) /\
    r !! "wday" = Some (TNumber 3) /\ r !! "yday" = Some (TNumber 60) /\
    r !! "isdst" = Some (TBool false).
Proof.
  destruct (os_date_table_fields (P := Reference.platform) 951782400 "*t" 0 []
              (mk_tm 0 0 0 29 1 100 2 59 0) eq_refl eq_refl)
    as (r & Hrun & Hsec & Hmin & Hhour & Hday & _ & _ & _ & _
        & Hmon & Hyear & Hwday & Hyday & Hdst & _).
  exists r. split; [exact Hrun|]. split; [exact Hsec|]. split; [exact Hmin|].
  split; [exact Hhour|]. split; [exact Hday|].
  split; [apply Hmon; unfold int_range; cbn [tm_mon]; lia|].
  split; [apply Hyear; unfold int_range; cbn [tm_year]; lia|].
  split; [apply Hwday; unfold int_range; cbn [tm_wday]; lia|].
  split; [apply Hyday; unfold int_range; cbn [tm_yday]; lia | exact Hdst].
Defined.

(** The counterexample to C3 as stated: [gmtime_r] accepts the first second
    of the year 2147483648, whose raw year is 2147481748; the sum with 1900
    is past [INT_MAX], and the year of the record is -2147483648. *)
Lemma os_date_year_wraps :
  gmtime_r (Platform := Reference.platform) 67767976233532800
  = Some (mk_tm 0 0 0 1 0 2147481748 3 0 0) /\
  top_field (os_date (P := Reference.platform)
               (state0 [TNumber 67767976233532800; TString "!*t"])) "year"
  = Some (TNumber (-2147483648)) /\
  2147481748 + 1900 = 2147483648.
Proof. vm_compute. repeat split; reflexivity. Qed.

Lemma os_date_requests_grow_witness :
  exists ext : list event,
    trace (final (os_date (P := Reference.platform)
                    (mk_State [TNumber 951782400; TString "%p"] 0 []))) = ext /\
    (exists rest, ext = EvBufNeed 31 :: rest) /\
    (length (buf_requests ext) <= 4)%nat /\
    (forall (i : nat) sz sz',
       buf_requests ext !! i = Some sz -> buf_requests ext !! S i = Some sz' ->
       sz' = (sz + Z.lor sz 1) mod 2 ^ 32) /\
    (forall cap rest,
       ext = EvBufNeed 31 :: EvStrftime cap "%p" :: rest ->
       exists rest', rest = EvBufNeed 62 :: rest').
Proof.
  destruct (os_date_requests_grow (P := Reference.platform) 951782400 "%p" 0 []
              (mk_tm 0 0 0 29 1 100 2 59 0) eq_refl)
    as (ext & Htr & Hfirst & Hlen & Hstep & Hnext & _); [discriminate | discriminate |].
  exists ext. split; [exact Htr|]. split; [exact Hfirst|]. split; [exact Hlen|].
  split; [exact Hstep|].
  intros cap rest Heq. apply (Hnext [] 31 cap rest Heq).
  - cbn [strftime Reference.platform]. unfold Reference.strftime_C.
    change (Reference.expand (c_str (date_fmt "%p")) _) with "".
    destruct (Z.of_nat (String.length "") <? cap); reflexivity.
  - cbn. lia.
Defined.

(** The counterexample to C4 as stated: for the pattern [%p], which renders
    as nothing, the sizes asked for are 31, 62, 125, 250 and the capacities
    [strftime] is given are 32, 64, 128, 256: the buffer doubles, and its
    second capacity is not the first grown by [sz + (sz | 1)], which is 65. *)
Lemma os_date_capacities_follow_the_buffer :
  buf_requests (trace (final (os_date (P := Reference.platform)
                                (state0 [TNumber 951782400; TString "%p"]))))
  = [31; 62; 125; 250] /\
  strftime_capacities (trace (final (os_date (P := Reference.platform)
                                       (state0 [TNumber 951782400; TString "%p"]))))
  = [32; 64; 128; 256] /\
  (32 + Z.lor 32 1) mod 2 ^ 32 = 65.
Proof. vm_compute. repeat split; reflexivity. Qed.

Lemma os_date_size_estimate_witness :
  os_date_size "%Y-%m-%d" 0 = 95 /\
  Z.of_nat (String.length "%Y-%m-%d") <= os_date_size "%Y-%m-%d" 0 /\
  1 <= os_date_size "%Y-%m-%d" 0.
Proof.
  destruct (os_date_size_estimate "%Y-%m-%d") as [_ H].
  destruct H as (H1 & H2 & H3); [reflexivity|].
  split; [exact H1|]. split; [exact H2|]. apply H3. discriminate.
Defined.

(** The counterexample to C5 as stated: for a pattern of 143165577 percent
    signs the sum is 4294967310 and the size asked for is 14, less than the
    length of the pattern. *)
Lemma os_date_size_wraps_around :
  let s := rep_char (Z.to_nat 143165577) "%" in
  s <> "" /\
  pattern_weight s = 4294967310 /\
  os_date_size s 0 = 14 /\
  os_date_size s 0 <> pattern_weight s /\
  os_date_size s 0 < Z.of_nat (String.length s).
Proof.
  intros s.
  assert (Hw : pattern_weight s = 4294967310).
  { unfold s. rewrite pattern_weight_percents, Z2Nat.id by lia. reflexivity. }
  assert (Hsz : os_date_size s 0 = 14).
  { rewrite os_date_size_mod. unfold s.
    rewrite c_str_rep_char by reflexivity. fold s. rewrite Hw. reflexivity. }
  assert (Hlen : Z.of_nat (String.length s) = 143165577).
  { unfold s. rewrite rep_char_length, Z2Nat.id by lia. reflexivity. }
  split.
  - intros Heq. rewrite Heq in Hlen. discriminate Hlen.
  - rewrite Hsz, Hw, Hlen. repeat split; first [reflexivity | discriminate].
Qed.

(** The counterexample to C6 as stated: an instant whose year does not fit
    [struct tm] is refused by the conversion, and [os_date] with the empty
    pattern returns nil for it, not the empty string. *)
Lemma os_date_empty_pattern_invalid_instant :
  localtime_r (Platform := Reference.platform) 4611686018427387904 = None /\
  results (os_date (P := Reference.platform)
             (state0 [TNumber 4611686018427387904; TString ""])) 1
  = Some [TNil].
Proof. vm_compute. split; reflexivity. Qed.

Lemma os_date_empty_pattern_witness :
  os_date (P := Reference.platform) (mk_State [TNumber 0; TString "!"] 0 [])
  = Return 1 (mk_State [TString ""; TNumber 0; TString "!"] 0 []) /\
  trace (final (os_date (P := Reference.platform)
                  (mk_State [TNumber 0; TString "!"] 0 []))) = [].
Proof.
  exact (os_date_empty_pattern (P := Reference.platform) 0 "!" 0 [] eq_refl).
Defined.

(** The counterexample to C7 as stated: a pattern of 32 ordinary characters
    is first given a buffer of 32 bytes, one short of what [strftime] needs,
    and is rendered at the second attempt. *)
Lemma os_date_literal_pattern_two_attempts :
  let p := "aaaaaaaaaaaaaaaaaaaaaaaaaaaaaaaa" in
  percent_free p = true /\
  localtime_r (Platform := Reference.platform) 0
  = Some (mk_tm 0 0 0 1 0 70 4 0 0) /\
  os_date_size p 0 = 32 /\
  strftime_calls (trace (final (os_date (P := Reference.platform)
                                  (state0 [TNumber 0; TString p]))))
  = [(32, p); (128, p)] /\
  results (os_date (P := Reference.platform) (state0 [TNumber 0; TString p])) 1
  = Some [TString p].
Proof. vm_compute. repeat split; reflexivity. Qed.

Lemma os_date_literal_pattern_witness :
  os_date_size "abc" 0 = 3 /\
  os_date (P := Reference.platform) (mk_State [TNumber 0; TString "abc"] 0 [])
  = Return 1 (mk_State [TString "abc"; TNumber 0; TString "abc"] 32
                       [EvBufNeed 3; EvStrftime 32 "abc"]).
Proof.
  destruct (os_date_literal_pattern (P := Reference.platform) 0 "abc" 0 []
              (mk_tm 0 0 0 1 0 70 4 0 0) 32)
    as (Hsize & Hone & _).
  - intros m f tm0. apply strftime_C_literal.
  - reflexivity.
  - discriminate.
  - discriminate.
  - reflexivity.
  - reflexivity.
  - reflexivity.
  - split; [exact Hsize|]. apply Hone. reflexivity.
Defined.

Lemma os_time_reads_in_order_witness :
  error_of (os_time (P := Reference.platform) (mk_State [TTable ∅] 0 []))
  = Some (LJ_ERR_OSDATEF "day") /\
  error_of (os_time (P := Reference.platform)
              (mk_State [TTable (<["day" := TNumber 1]> ∅)] 0 []))
  = Some (LJ_ERR_OSDATEF "month").
Proof.
  split.
  - apply (proj1 (proj2 (os_time_reads_in_order (P := Reference.platform) ∅ 0 []))).
    reflexivity.
  - apply (proj1 (proj2 (proj2 (os_time_reads_in_order (P := Reference.platform)
                                  (<["day" := TNumber 1]> ∅) 0 []))));
      reflexivity.
Defined.

Lemma os_time_isdst_by_truthiness_witness :
  exists L' ts,
    os_time (P := Reference.platform)
      (mk_State [TTable (<["isdst" := TNumber 0]>
                         (<["day" := TNumber 1]>
                         (<["month" := TNumber 2]>
                         (<["year" := TNumber 2024]> ∅))))] 0 [])
    = Return 1 L' /\
    mktime_calls (trace L') = [ts] /\ tm_isdst ts = 1.
Proof.
  destruct (os_time_isdst_by_truthiness (P := Reference.platform)
              (<["isdst" := TNumber 0]>
               (<["day" := TNumber 1]>
               (<["month" := TNumber 2]>
               (<["year" := TNumber 2024]> ∅)))) 0 [])
    as (L' & ts & Hrun & Hcalls & _ & Hzero); try reflexivity.
  exists L', ts. split; [exact Hrun|]. split; [exact Hcalls|].
  apply Hzero. reflexivity.
Defined.

(** The counterexample to C10 as stated: the string ["15"] is present and is
    not a number, yet [os_time] reads it as the day 15, whereas it throws for
    the record without [day]. *)
Lemma os_time_numeric_string_is_read :
  let tb : gmap string TValue :=
    <["day" := TString "15"]>
    (<["month" := TNumber 1]> (<["year" := TNumber 2024]> ∅)) in
  tb !! "day" = Some (TString "15") /\
  error_of (os_time (P := Reference.platform) (state0 [TTable tb])) = None /\
  mktime_calls (trace (final (os_time (P := Reference.platform)
                                (state0 [TTable tb]))))
  = [mk_tm 0 0 12 15 0 124 0 0 (-1)] /\
  error_of (os_time (P := Reference.platform) (state0 [TTable (delete "day" tb)]))
  = Some (LJ_ERR_OSDATEF "day").
Proof. vm_compute. repeat split; reflexivity. Qed.

Lemma os_time_rejected_value_as_absent_witness :
  let tb : gmap string TValue :=
    <["day" := TBool true]>
    (<["month" := TNumber 1]> (<["year" := TNumber 2024]> ∅)) in
  observe (os_time (P := Reference.platform) (mk_State [TTable tb] 0 []))
  = observe (os_time (P := Reference.platform)
               (mk_State [TTable (delete "day" tb)] 0 [])) /\
  error_of (os_time (P := Reference.platform) (mk_State [TTable tb] 0 []))
  = Some (LJ_ERR_OSDATEF "day").
Proof.
  intros tb.
  destruct (os_time_rejected_value_as_absent (P := Reference.platform)
              tb "day" (TBool true) 0 []) as (Hobs & _ & _).
  - do 3 apply list_elem_of_further. apply list_elem_of_here.
  - reflexivity.
  - reflexivity.
  - split; [exact Hobs | reflexivity].
Defined.

(** * More of [os_time] *)

Lemma index2adr_bottom rest x : index2adr (rest ++ [x]) 1 = Some x.
Proof.
  unfold index2adr, index2pos. rewrite length_app. cbn [length].
  change (0 <? 1) with true. cbv iota.
  destruct (Z.leb_spec 1 (Z.of_nat (length rest + 1))) as [_|Hlt]; [|lia].
  replace (Z.to_nat (Z.of_nat (length rest + 1) - 1)) with (length rest + 0)%nat by lia.
  cbn [mbind option_bind]. rewrite lookup_app_r by lia.
  replace (length rest + 0 - length rest)%nat with 0%nat by lia. reflexivity.
Qed.

Lemma lua_type_bottom rest x b tr :
  lua_type 1 (mk_State (rest ++ [x]) b tr)
  = Return (type_of (Some x)) (mk_State (rest ++ [x]) b tr).
Proof.
  unfold lua_type, bind, get_stack, ret. cbn [stack].
  rewrite index2adr_bottom. reflexivity.
Qed.

Lemma lua_isnoneornil_bottom rest x b tr :
  lua_isnoneornil 1 (mk_State (rest ++ [x]) b tr)
  = Return (type_of (Some x) <=? 0) (mk_State (rest ++ [x]) b tr).
Proof.
  unfold lua_isnoneornil. rewrite bind_unfold, lua_type_bottom. reflexivity.
Qed.

Lemma luaL_checktype_bottom rest x t tname b tr :
  luaL_checktype 1 t tname (mk_State (rest ++ [x]) b tr)
  = if type_of (Some x) =? t then Return tt (mk_State (rest ++ [x]) b tr)
    else Throw (LJ_ERR_ARGTYPE 1 tname) (mk_State (rest ++ [x]) b tr).
Proof.
  unfold luaL_checktype. rewrite bind_unfold, lua_type_bottom.
  destruct (type_of (Some x) =? t); reflexivity.
Qed.

Lemma lua_settop_1_bottom rest x b tr :
  lua_settop 1 (mk_State (rest ++ [x]) b tr) = Return tt (mk_State [x] b tr).
Proof.
  unfold lua_settop, bind, get_stack, put_stack. cbn [stack tmpbuf trace].
  rewrite length_app. cbn [length]. change (0 <=? 1) with true. cbv iota zeta.
  destruct (Z.leb_spec 1 (Z.of_nat (length rest + 1))) as [_|Hlt]; [|lia].
  replace (Z.to_nat (Z.of_nat (length rest + 1) - 1)) with (length rest) by lia.
  rewrite drop_app_length. reflexivity.
Qed.

Lemma to_int_id n : int_range n -> to_int n = n.
Proof.
  unfold int_range, to_int. intros H.
  rewrite Z.mod_small by lia. lia.
Qed.

Lemma to_int_congruent n k : to_int (n + k * 2 ^ 32) = to_int n.
Proof.
  unfold to_int. replace (n + k * 2 ^ 32 + 2 ^ 31) with (n + 2 ^ 31 + k * 2 ^ 32) by lia.
  rewrite Z_mod_plus_full. reflexivity.
Qed.

Section MoreCodec.

Context {P : Platform}.

(** X1: called without argument, or with nil, [os_time] returns
    [time(NULL)] (nil when that is -1); it reads no field and does not call
    [mktime]. *)
Theorem os_time_without_argument st b tr :
  st = [] \/ (exists rest, st = (rest ++ [TNil])%list) ->
  os_time (mk_State st b tr)
  = Return 1 (mk_State ((if time_NULL =? -1 then TNil else TNumber time_NULL) :: st)
                       b tr).
Proof.
  intros [->|[rest ->]]; unfold os_time.
  - rewrite !bind_unfold.
    change (lua_isnoneornil 1 (mk_State [] b tr)) with (Return true (mk_State [] b tr)).
    cbv beta iota. unfold bind, ret. destruct (time_NULL =? -1); reflexivity.
  - rewrite !bind_unfold, lua_isnoneornil_bottom.
    change (type_of (Some TNil) <=? 0) with true.
    cbv beta iota. unfold bind, ret. destruct (time_NULL =? -1); reflexivity.
Qed.

(** X2: a first argument that is neither nil nor a table makes [os_time]
    throw the argument error for argument 1 before anything is read: the
    stack and the trace are as they were. *)
Theorem os_time_not_a_table rest v b tr :
  type_of (Some v) <> LUA_TNIL -> type_of (Some v) <> LUA_TTABLE ->
  os_time (mk_State (rest ++ [v]) b tr)
  = Throw (LJ_ERR_ARGTYPE 1 "table") (mk_State (rest ++ [v]) b tr).
Proof.
  intros Hnil Htab. unfold os_time.
  rewrite !bind_unfold, lua_isnoneornil_bottom.
  assert (Hty : (type_of (Some v) <=? 0) = false).
  { destruct v as [| | | | |[]]; try reflexivity. contradiction Hnil. reflexivity. }
  rewrite Hty. cbv beta iota. rewrite !bind_unfold, luaL_checktype_bottom.
  destruct (Z.eqb_spec (type_of (Some v)) LUA_TTABLE) as [e|_];
    [contradiction (Htab e) | reflexivity].
Qed.

(** X6: arguments after the table are dropped by [lua_settop(L, 1)]:
    [os_time] does with them exactly what it does with the table alone. *)
Theorem os_time_ignores_further_arguments rest tb b tr :
  os_time (mk_State (rest ++ [TTable tb]) b tr)
  = os_time (mk_State [TTable tb] b tr).
Proof.
  transitivity (os_time (mk_State ([] ++ [TTable tb]) b tr)); [|reflexivity].
  unfold os_time. rewrite !bind_unfold, !lua_isnoneornil_bottom.
  change (type_of (Some (TTable tb)) <=? 0) with false. cbv beta iota.
  rewrite !bind_unfold, !luaL_checktype_bottom.
  change (type_of (Some (TTable tb)) =? LUA_TTABLE) with true. cbv beta iota.
  rewrite !bind_unfold, !lua_settop_1_bottom. reflexivity.
Qed.

(** X3: with its three required fields readable, [os_time] calls [mktime]
    once and leaves the table and one result on the stack: nil exactly when
    [mktime] answered -1, the number [mktime] answered otherwise. *)
Theorem os_time_nil_iff_minus_one tb b tr :
  usable tb "day" = true -> usable tb "month" = true -> usable tb "year" = true ->
  exists L' ts,
    os_time (mk_State [TTable tb] b tr) = Return 1 L' /\
    mktime_calls (trace L') = (mktime_calls tr ++ [ts])%list /\
    stack L' = [if mktime ts =? -1 then TNil else TNumber (mktime ts); TTable tb] /\
    tmpbuf L' = b.
Proof.
  intros Hd Hm Hy. rewrite os_time_run, Hd, Hm, Hy. cbn [negb]. cbv zeta.
  eexists _, (compose_tm tb). split; [reflexivity|]. cbn [trace stack tmpbuf].
  rewrite !mktime_calls_app, mktime_calls_getfields. repeat split.
Qed.

Lemma read_int_number tb key n d :
  tb !! key = Some (TNumber n) -> read_int tb key d = to_int n.
Proof. intros H. unfold read_int, usable, field. rewrite H. reflexivity. Qed.

Lemma usable_number tb key n : tb !! key = Some (TNumber n) -> usable tb key = true.
Proof. intros H. unfold usable, field. rewrite H. reflexivity. Qed.

(** X4: numbers within [int] are passed on as they are: [day] becomes
    [tm_mday], [month] minus 1 becomes [tm_mon], [year] minus 1900 becomes
    [tm_year], the two differences being values of [int] as well, and
    [sec], [min], [hour], when they are given, become [tm_sec], [tm_min],
    [tm_hour]. *)
Theorem os_time_fields_reach_mktime tb d m y b tr :
  tb !! "day" = Some (TNumber d) -> tb !! "month" = Some (TNumber m) ->
  tb !! "year" = Some (TNumber y) ->
  int_range d -> int_range m -> int_range y ->
  int_range (m - 1) -> int_range (y - 1900) ->
  exists L' ts,
    os_time (mk_State [TTable tb] b tr) = Return 1 L' /\
    mktime_calls (trace L') = (mktime_calls tr ++ [ts])%list /\
    tm_mday ts = d /\ tm_mon ts = m - 1 /\ tm_year ts = y - 1900 /\
    (forall n, tb !! "sec" = Some (TNumber n) -> int_range n -> tm_sec ts = n) /\
    (forall n, tb !! "min" = Some (TNumber n) -> int_range n -> tm_min ts = n) /\
    (forall n, tb !! "hour" = Some (TNumber n) -> int_range n -> tm_hour ts = n).
Proof.
  intros Hd Hm Hy Rd Rm Ry _ _.
  rewrite os_time_run, (usable_number _ _ _ Hd), (usable_number _ _ _ Hm),
    (usable_number _ _ _ Hy). cbn [negb]. cbv zeta.
  eexists _, (compose_tm tb). split; [reflexivity|]. cbn [trace].
  rewrite !mktime_calls_app, mktime_calls_getfields. split; [reflexivity|].
  cbn [compose_tm tm_mday tm_mon tm_year tm_sec tm_min tm_hour].
  rewrite (read_int_number _ _ _ _ Hd), (read_int_number _ _ _ _ Hm),
    (read_int_number _ _ _ _ Hy), !to_int_id by assumption.
  repeat split; intros n Hn Rn; rewrite (read_int_number _ _ _ _ Hn);
    apply to_int_id, Rn.
Qed.

Lemma field_insert_eq tb key v : field (<[key := v]> tb) key = v.
Proof. unfold field. rewrite lookup_insert_eq. reflexivity. Qed.

Lemma field_insert_ne tb key v k : k <> key -> field (<[key := v]> tb) k = field tb k.
Proof. intros H. unfold field. rewrite lookup_insert_ne by congruence. reflexivity. Qed.

Lemma usable_insert_number tb key n n' k :
  tb !! key = Some (TNumber n) ->
  usable (<[key := TNumber n']> tb) k = usable tb k.
Proof.
  intros H. unfold usable. destruct (decide (k = key)) as [->|Hne].
  - rewrite field_insert_eq. unfold field. rewrite H. reflexivity.
  - rewrite field_insert_ne by exact Hne. reflexivity.
Qed.

Lemma read_int_insert_congruent tb key n j k d :
  tb !! key = Some (TNumber n) ->
  read_int (<[key := TNumber (n + j * 2 ^ 32)]> tb) k d = read_int tb k d.
Proof.
  intros H. unfold read_int. rewrite (usable_insert_number tb key n _ k H).
  destruct (decide (k = key)) as [->|Hne].
  - rewrite field_insert_eq. unfold usable, field. rewrite H. cbn [isnumber tointeger default].
    rewrite to_int_congruent. reflexivity.
  - rewrite field_insert_ne by exact Hne. reflexivity.
Qed.

(** X5: a field is converted to [int] by dropping the bits above the
    32nd: two records that differ in one numeric field of [sec], [min],
    [hour], [day], [month], [year] by a multiple of 2^32 are not told apart,
    both values being within [lua_Integer]. *)
Theorem os_time_field_modulo tb key n j b tr :
  key ∈ ["sec"; "min"; "hour"; "day"; "month"; "year"] ->
  tb !! key = Some (TNumber n) ->
  integer_range n -> integer_range (n + j * 2 ^ 32) ->
  observe (os_time (mk_State [TTable (<[key := TNumber (n + j * 2 ^ 32)]> tb)] b tr))
  = observe (os_time (mk_State [TTable tb] b tr)).
Proof.
  intros Hkey Hn _ _.
  assert (Hne : key <> "isdst").
  { intros ->. revert Hkey. rewrite !elem_of_cons, elem_of_nil.
    intros [H|[H|[H|[H|[H|[H|[]]]]]]]; discriminate H. }
  rewrite !os_time_run, !(usable_insert_number tb key n _ _ Hn).
  assert (Htm : compose_tm (<[key := TNumber (n + j * 2 ^ 32)]> tb) = compose_tm tb).
  { unfold compose_tm. rewrite !(read_int_insert_congruent tb key n j _ _ Hn).
    unfold read_bool. rewrite field_insert_ne by congruence. reflexivity. }
  rewrite Htm.
  destruct (usable tb "day"); [|reflexivity].
  destruct (usable tb "month"); [|reflexivity].
  destruct (usable tb "year"); reflexivity.
Qed.

End MoreCodec.

(** * More of [os_date] *)

Lemma same_effect_refl {A : Type} st (o : outcome A) pushed :
  stack (final o) = (pushed ++ st)%list -> same_effect st o st o.
Proof. intros H. repeat split. exists pushed. split; exact H. Qed.

Lemma c_str_idempotent s : c_str (c_str s) = c_str s.
Proof.
  induction s as [|c q IH]; [reflexivity|]. cbn [c_str].
  destruct (Ascii.eqb c NUL) eqn:Hc; [reflexivity|].
  cbn [c_str]. rewrite Hc, IH. reflexivity.
Qed.

Lemma deref_c_str s : deref (c_str s) = deref s.
Proof.
  destruct s as [|c q]; [reflexivity|]. cbn [c_str deref].
  destruct (Ascii.eqb_spec c NUL) as [->|_]; reflexivity.
Qed.

Lemma date_utc_c_str p : date_utc (c_str p) = date_utc p.
Proof. unfold date_utc. rewrite deref_c_str. reflexivity. Qed.

Lemma date_fmt_c_str p : date_fmt (c_str p) = c_str (date_fmt p).
Proof.
  unfold date_fmt. rewrite date_utc_c_str. unfold date_utc.
  destruct p as [|c q]; [reflexivity|]. cbn [deref advance c_str].
  destruct (Ascii.eqb_spec c "!") as [->|_]; reflexivity.
Qed.

Lemma calendar_record_fields stm :
  calendar_record stm !! "sec" = Some (TNumber (tm_sec stm)) /\
  calendar_record stm !! "min" = Some (TNumber (tm_min stm)) /\
  calendar_record stm !! "hour" = Some (TNumber (tm_hour stm)) /\
  calendar_record stm !! "day" = Some (TNumber (tm_mday stm)) /\
  calendar_record stm !! "month" = Some (TNumber (int_add (tm_mon stm) 1)) /\
  calendar_record stm !! "year" = Some (TNumber (int_add (tm_year stm) 1900)) /\
  calendar_record stm !! "isdst"
  = (if tm_isdst stm <? 0 then None else Some (TBool (negb (tm_isdst stm =? 0)))).
Proof.
  unfold calendar_record. cbv zeta.
  destruct (tm_isdst stm <? 0);
    repeat split;
    repeat (rewrite lookup_insert_ne by discriminate);
    first [apply lookup_insert_eq | apply lookup_empty].
Qed.

Section MoreFormatter.

Context {P : Platform}.

(** X7: the record [os_date] makes for [*t] is one [os_time] accepts, and it
    comes back to [mktime] with the calendar fields it was made from: the
    offsets of month and year cancel, [tm_wday] and [tm_yday] are not read
    back, and [isdst] comes back as -1, 0 or 1. *)
Theorem os_time_of_os_date_table t p b tr stm :
  date_tm p t = Some stm -> c_str (date_fmt p) = "*t" -> tm_fits stm ->
  exists r L1,
    os_date (mk_State [TNumber t; TString p] b tr) = Return 1 L1 /\
    stack L1 = [TTable r; TNumber t; TString p] /\
    forall b' tr', exists L2,
      os_time (mk_State [TTable r] b' tr') = Return 1 L2 /\
      mktime_calls (trace L2)
      = (mktime_calls tr' ++
         [mk_tm (tm_sec stm) (tm_min stm) (tm_hour stm) (tm_mday stm)
                (tm_mon stm) (tm_year stm) 0 0 (isdst_read_back (tm_isdst stm))])%list.
Proof.
  intros Htm Hstar (Rs & Rmi & Rh & Rd & Rmo & Ry).
  exists (calendar_record stm). eexists. split.
  { rewrite os_date_run, Htm. unfold strcmp_eq. rewrite Hstar. reflexivity. }
  split; [reflexivity|]. intros b' tr'.
  destruct (calendar_record_fields stm) as (Hs & Hmi & Hh & Hd & Hmo & Hy & Hdst).
  rewrite (int_add_exact _ _ Rmo) in Hmo. rewrite (int_add_exact _ _ Ry) in Hy.
  assert (Hts : compose_tm (calendar_record stm)
                = mk_tm (tm_sec stm) (tm_min stm) (tm_hour stm) (tm_mday stm)
                        (tm_mon stm) (tm_year stm) 0 0
                        (isdst_read_back (tm_isdst stm))).
  { unfold compose_tm.
    rewrite (read_int_number _ _ _ _ Hs), (read_int_number _ _ _ _ Hmi),
      (read_int_number _ _ _ _ Hh), (read_int_number _ _ _ _ Hd),
      (read_int_number _ _ _ _ Hmo), (read_int_number _ _ _ _ Hy),
      !to_int_id by assumption.
    replace (tm_mon stm + 1 - 1) with (tm_mon stm) by lia.
    replace (tm_year stm + 1900 - 1900) with (tm_year stm) by lia.
    f_equal. unfold read_bool, field, isdst_read_back. rewrite Hdst.
    destruct (tm_isdst stm <? 0); [reflexivity|].
    destruct (tm_isdst stm =? 0); reflexivity. }
  rewrite os_time_run, (usable_number _ _ _ Hd), (usable_number _ _ _ Hmo),
    (usable_number _ _ _ Hy). cbn [negb]. cbv zeta.
  eexists. split; [reflexivity|]. cbn [trace].
  rewrite !mktime_calls_app, mktime_calls_getfields, Hts. reflexivity.
Qed.

(** ** What the retry loop leaves behind *)

Lemma os_date_retry_outcome s stm retry :
  forall sz st b tr,
  match os_date_retry retry s stm sz (mk_State st b tr) with
  | Return _ L' =>
      (stack L' = st /\
       length (strftime_calls (trace L')) = (length (strftime_calls tr) + retry)%nat) \/
      (exists buf cap,
         buf <> "" /\ stack L' = TString buf :: st /\
         buf = strftime cap (c_str s) stm /\
         last (strftime_calls (trace L')) = Some (cap, c_str s) /\
         tmpbuf L' = cap)
  | Throw e L' => e = LJ_ERR_MEM /\ stack L' = st
  end.
Proof.
  induction retry as [|retry IH]; intros sz st b tr.
  - cbn [os_date_retry]. unfold ret. left. cbn [stack trace]. split; [reflexivity|lia].
  - rewrite os_date_retry_S.
    destruct (lj_buf_grow b sz) as [cap|]; [|split; reflexivity].
    cbv zeta.
    destruct (String.length (strftime cap (c_str s) stm) =? 0)%nat eqn:Hlen.
    + specialize (IH (os_date_grow sz) st cap
                     (tr ++ [EvBufNeed sz; EvStrftime cap (c_str s)])%list).
      destruct (os_date_retry retry s stm (os_date_grow sz) _) as [u L'|e L'];
        [|exact IH].
      destruct IH as [[Hst Hn]|Hpush]; [left|right; exact Hpush].
      split; [exact Hst|]. rewrite Hn, strftime_calls_app, length_app. cbn. lia.
    + right. exists (strftime cap (c_str s) stm), cap. cbn [stack trace tmpbuf].
      split.
      * intros Heq. rewrite Heq in Hlen. discriminate Hlen.
      * rewrite strftime_calls_app.
        change (strftime_calls [EvBufNeed sz; EvStrftime cap (c_str s)])
          with [(cap, c_str s)].
        rewrite last_snoc. repeat split.
Qed.

(** X8: for a pattern that is rendered as text, [os_date] ends in one of
    three ways: it pushes the text [strftime] placed at its last call, which
    is not empty and was rendered from the pattern without its leading
    exclamation mark, into the whole temporary buffer; or it pushes nothing
    after four calls of [strftime]; or it throws the memory error of the
    buffer, having pushed nothing. *)
Theorem os_date_text_outcome t p b tr stm :
  date_tm p t = Some stm ->
  c_str (date_fmt p) <> "" -> c_str (date_fmt p) <> "*t" ->
  match os_date (mk_State [TNumber t; TString p] b tr) with
  | Return n L' =>
      n = 1 /\
      ((stack L' = [TNumber t; TString p] /\
        length (strftime_calls (trace L')) = (length (strftime_calls tr) + 4)%nat) \/
       (exists buf cap,
          buf <> "" /\ stack L' = [TString buf; TNumber t; TString p] /\
          buf = strftime cap (c_str (date_fmt p)) stm /\
          last (strftime_calls (trace L')) = Some (cap, c_str (date_fmt p)) /\
          tmpbuf L' = cap))
  | Throw e L' => e = LJ_ERR_MEM /\ stack L' = [TNumber t; TString p]
  end.
Proof.
  intros Htm Hne Hstar. rewrite (final_os_date_text t p b tr stm Htm Hne Hstar).
  pose proof (os_date_retry_outcome (date_fmt p) stm 4
                (os_date_size (date_fmt p) 0) [TNumber t; TString p] b tr) as H.
  destruct (os_date_retry 4 (date_fmt p) stm _ _) as [u L'|e L'];
    [split; [reflexivity | exact H] | exact H].
Qed.

Lemma os_date_retry_attempts s stm
      (Hgrow : forall c z cap, lj_buf_grow c z = Some cap -> z <= cap) retry :
  forall sz st b tr,
  exists ext,
    trace (final (os_date_retry retry s stm sz (mk_State st b tr))) = (tr ++ ext)%list /\
    attempts_fit ext = true /\
    (length (strftime_calls ext) <= retry)%nat /\
    Forall (fun c => c.2 = c_str s) (strftime_calls ext).
Proof.
  induction retry as [|retry IH]; intros sz st b tr.
  - exists []. cbn [os_date_retry]. unfold ret. cbn [final trace].
    rewrite app_nil_r. repeat split; [cbn; lia | constructor].
  - rewrite os_date_retry_S. destruct (lj_buf_grow b sz) as [cap|] eqn:Hcap.
    + cbv zeta. pose proof (Hgrow _ _ _ Hcap) as Hle.
      destruct (String.length (strftime cap (c_str s) stm) =? 0)%nat.
      * destruct (IH (os_date_grow sz) st cap
                     (tr ++ [EvBufNeed sz; EvStrftime cap (c_str s)])%list)
          as (ext & Htr & Hfit & Hlen & Hall).
        exists (EvBufNeed sz :: EvStrftime cap (c_str s) :: ext).
        rewrite Htr, <- app_assoc. split; [reflexivity|].
        cbn [attempts_fit]. rewrite Hfit.
        destruct (Z.leb_spec sz cap) as [_|Hlt]; [|lia].
        split; [reflexivity|].
        change (strftime_calls (EvBufNeed sz :: EvStrftime cap (c_str s) :: ext))
          with ((cap, c_str s) :: strftime_calls ext).
        cbn [length]. split; [lia|]. constructor; [reflexivity|exact Hall].
      * exists [EvBufNeed sz; EvStrftime cap (c_str s)]. cbn [final trace].
        split; [reflexivity|]. cbn [attempts_fit].
        destruct (Z.leb_spec sz cap) as [_|Hlt]; [|lia].
        split; [reflexivity|]. cbn. split; [lia|]. repeat constructor.
    + exists [EvBufNeed sz]. cbn [final trace]. split; [reflexivity|].
      split; [reflexivity|]. cbn. split; [lia|constructor].
Qed.

(** X9: with a buffer that never hands out less than it is asked for, what
    [os_date] does for a text pattern is a row of attempts, each a request
    followed by one call of [strftime] whose capacity covers the request; it
    calls [strftime] at most four times, always with the pattern without its
    leading exclamation mark, and asks nothing else of its collaborators. *)
Theorem os_date_attempts_fit t p b tr stm :
  (forall c z cap, lj_buf_grow c z = Some cap -> z <= cap) ->
  date_tm p t = Some stm ->
  c_str (date_fmt p) <> "" -> c_str (date_fmt p) <> "*t" ->
  exists ext,
    trace (final (os_date (mk_State [TNumber t; TString p] b tr))) = (tr ++ ext)%list /\
    attempts_fit ext = true /\
    (length (strftime_calls ext) <= 4)%nat /\
    Forall (fun c => c.2 = c_str (date_fmt p)) (strftime_calls ext).
Proof.
  intros Hgrow Htm Hne Hstar.
  rewrite (final_os_date_text t p b tr stm Htm Hne Hstar).
  destruct (os_date_retry_attempts (date_fmt p) stm Hgrow 4
              (os_date_size (date_fmt p) 0) [TNumber t; TString p] b tr)
    as (ext & Htr & Hrest).
  exists ext. split; [|exact Hrest].
  destruct (os_date_retry 4 (date_fmt p) stm _ _) as [u L'|e L']; exact Htr.
Qed.

(** ** [os_date] on other stacks *)

Lemma os_date_run_on st p t b tr :
  luaL_optstring 1 "%c" (mk_State st b tr) = Return p (mk_State st b tr) ->
  luaL_opt_checknumber 2 time_NULL (mk_State st b tr) = Return t (mk_State st b tr) ->
  os_date (mk_State st b tr) =
  match date_tm p t with
  | None => Return 1 (mk_State (TNil :: st) b tr)
  | Some stm =>
      if strcmp_eq (date_fmt p) "*t" then
        Return 1 (mk_State (TTable (calendar_record stm) :: st) b tr)
      else if negb (Ascii.eqb (deref (date_fmt p)) NUL) then
        match os_date_retry 4 (date_fmt p) stm (os_date_size (date_fmt p) 0)
                            (mk_State st b tr) with
        | Return _ L' => Return 1 L'
        | Throw e L' => Throw e L'
        end
      else Return 1 (mk_State (TString "" :: st) b tr)
  end.
Proof.
  intros Hs Ht. unfold os_date.
  rewrite ?bind_unfold, Hs. cbv beta iota. rewrite ?bind_unfold, Ht. cbv beta iota zeta.
  unfold date_tm, date_fmt, date_utc.
  set (s := if Ascii.eqb (deref p) "!" then advance p else p).
  destruct (if Ascii.eqb (deref p) "!" then gmtime_r t else localtime_r t) as [stm|];
    [|reflexivity].
  destruct (strcmp_eq s "*t").
  - step lua_createtable_run. do 8 (step setfield_run).
    rewrite setboolfield_run. reflexivity.
  - destruct (negb (Ascii.eqb (deref s) NUL)); [|reflexivity].
    rewrite bind_unfold. reflexivity.
Qed.

Lemma os_date_retry_same_effect s stm retry :
  forall sz st1 st2 b tr,
  same_effect st1 (os_date_retry retry s stm sz (mk_State st1 b tr))
              st2 (os_date_retry retry s stm sz (mk_State st2 b tr)).
Proof.
  induction retry as [|retry IH]; intros sz st1 st2 b tr.
  - cbn [os_date_retry]. unfold ret. repeat split. exists []. split; reflexivity.
  - rewrite !os_date_retry_S. destruct (lj_buf_grow b sz) as [cap|].
    + cbv zeta. destruct (String.length (strftime cap (c_str s) stm) =? 0)%nat.
      * apply IH.
      * repeat split. exists [TString (strftime cap (c_str s) stm)]. split; reflexivity.
    + repeat split. exists []. split; reflexivity.
Qed.

Lemma same_effect_returns_1 st1 st2 (o1 o2 : outcome unit) :
  same_effect st1 o1 st2 o2 ->
  same_effect st1 (match o1 with Return _ L' => Return 1 L' | Throw e L' => Throw e L' end)
              st2 (match o2 with Return _ L' => Return 1 L' | Throw e L' => Throw e L' end).
Proof.
  destruct o1 as [u1 L1|e1 L1], o2 as [u2 L2|e2 L2];
    intros (Hv & He & Htr & Hb & Hst); cbn in *; try discriminate;
    repeat split; assumption.
Qed.

Lemma os_date_same_effect st1 st2 p t b tr :
  luaL_optstring 1 "%c" (mk_State st1 b tr) = Return p (mk_State st1 b tr) ->
  luaL_opt_checknumber 2 time_NULL (mk_State st1 b tr) = Return t (mk_State st1 b tr) ->
  luaL_optstring 1 "%c" (mk_State st2 b tr) = Return p (mk_State st2 b tr) ->
  luaL_opt_checknumber 2 time_NULL (mk_State st2 b tr) = Return t (mk_State st2 b tr) ->
  same_effect st1 (os_date (mk_State st1 b tr)) st2 (os_date (mk_State st2 b tr)).
Proof.
  intros Hs1 Ht1 Hs2 Ht2.
  rewrite (os_date_run_on st1 p t b tr Hs1 Ht1), (os_date_run_on st2 p t b tr Hs2 Ht2).
  destruct (date_tm p t) as [stm|];
    [|repeat split; exists [TNil]; split; reflexivity].
  destruct (strcmp_eq (date_fmt p) "*t");
    [repeat split; exists [TTable (calendar_record stm)]; split; reflexivity|].
  destruct (negb (Ascii.eqb (deref (date_fmt p)) NUL));
    [|repeat split; exists [TString ""]; split; reflexivity].
  apply same_effect_returns_1, os_date_retry_same_effect.
Qed.

Lemma index2adr_second_bottom rest a x : index2adr (rest ++ [a; x]) 2 = Some a.
Proof.
  unfold index2adr, index2pos. rewrite length_app. cbn [length].
  change (0 <? 2) with true. cbv iota.
  destruct (Z.leb_spec 2 (Z.of_nat (length rest + 2))) as [_|Hlt]; [|lia].
  replace (Z.to_nat (Z.of_nat (length rest + 2) - 2)) with (length rest + 0)%nat by lia.
  cbn [mbind option_bind]. rewrite lookup_app_r by lia.
  replace (length rest + 0 - length rest)%nat with 0%nat by lia. reflexivity.
Qed.

Lemma luaL_optstring_bottom rest p b tr :
  luaL_optstring 1 "%c" (mk_State (rest ++ [TString p]) b tr)
  = Return p (mk_State (rest ++ [TString p]) b tr).
Proof.
  unfold luaL_optstring, bind, get_stack. cbn [stack].
  rewrite index2adr_bottom. reflexivity.
Qed.

Lemma luaL_opt_checknumber_second rest t x b tr :
  luaL_opt_checknumber 2 time_NULL (mk_State (rest ++ [TNumber t; x]) b tr)
  = Return t (mk_State (rest ++ [TNumber t; x]) b tr).
Proof.
  unfold luaL_opt_checknumber, lua_isnoneornil, lua_type, luaL_checknumber,
    bind, get_stack, ret.
  cbn [stack]. rewrite !index2adr_second_bottom.
  change (type_of (Some (TNumber t)) <=? 0) with false. cbv beta iota.
  cbn [stack]. rewrite !index2adr_second_bottom. reflexivity.
Qed.

(** X10: an argument that is left out or nil takes its default: the
    pattern is [%c] and the instant is [time(NULL)].  The call without the
    argument does exactly what the call with the default written out
    does. *)
Theorem os_date_default_arguments b tr :
  same_effect [] (os_date (mk_State [] b tr))
              [TNumber time_NULL; TString "%c"]
              (os_date (mk_State [TNumber time_NULL; TString "%c"] b tr)) /\
  (forall p,
     same_effect [TString p] (os_date (mk_State [TString p] b tr))
                 [TNumber time_NULL; TString p]
                 (os_date (mk_State [TNumber time_NULL; TString p] b tr))) /\
  (forall p,
     same_effect [TNil; TString p] (os_date (mk_State [TNil; TString p] b tr))
                 [TNumber time_NULL; TString p]
                 (os_date (mk_State [TNumber time_NULL; TString p] b tr))) /\
  (forall t,
     same_effect [TNumber t; TNil] (os_date (mk_State [TNumber t; TNil] b tr))
                 [TNumber t; TString "%c"]
                 (os_date (mk_State [TNumber t; TString "%c"] b tr))).
Proof.
  repeat split; intros;
    (eapply os_date_same_effect; reflexivity).
Qed.

(** X11: [os_date] reads its first two arguments only: further arguments
    stay where they are, and the call does exactly what it does without
    them. *)
Theorem os_date_ignores_further_arguments rest t p b tr :
  same_effect (rest ++ [TNumber t; TString p])
              (os_date (mk_State (rest ++ [TNumber t; TString p]) b tr))
              [TNumber t; TString p]
              (os_date (mk_State [TNumber t; TString p] b tr)).
Proof.
  apply (os_date_same_effect _ _ p t).
  - replace (rest ++ [TNumber t; TString p])%list
      with ((rest ++ [TNumber t]) ++ [TString p])%list by (rewrite <- app_assoc; reflexivity).
    apply luaL_optstring_bottom.
  - apply luaL_opt_checknumber_second.
  - reflexivity.
  - reflexivity.
Qed.

Lemma os_date_retry_c_str stm retry :
  forall s sz st b tr,
  os_date_retry retry (c_str s) stm sz (mk_State st b tr)
  = os_date_retry retry s stm sz (mk_State st b tr).
Proof.
  induction retry as [|retry IH]; intros s sz st b tr; [reflexivity|].
  rewrite !os_date_retry_S, c_str_idempotent.
  destruct (lj_buf_grow b sz) as [cap|]; [|reflexivity]. cbv zeta.
  destruct (String.length (strftime cap (c_str s) stm) =? 0)%nat; [|reflexivity].
  apply IH.
Qed.

(** X12: the pattern is read as a C string: what follows a NUL in it is not
    looked at, and the call does exactly what it does for the pattern cut
    at its first NUL. *)
Theorem os_date_pattern_ends_at_NUL t p b tr :
  same_effect [TNumber t; TString p]
              (os_date (mk_State [TNumber t; TString p] b tr))
              [TNumber t; TString (c_str p)]
              (os_date (mk_State [TNumber t; TString (c_str p)] b tr)).
Proof.
  rewrite !os_date_run.
  unfold date_tm. rewrite date_utc_c_str. fold (date_tm p t).
  rewrite date_fmt_c_str.
  destruct (date_tm p t) as [stm|];
    [|repeat split; exists [TNil]; split; reflexivity].
  unfold strcmp_eq. rewrite c_str_idempotent, deref_c_str.
  destruct (String.eqb (c_str (date_fmt p)) (c_str "*t"));
    [repeat split; exists [TTable (calendar_record stm)]; split; reflexivity|].
  destruct (negb (Ascii.eqb (deref (date_fmt p)) NUL));
    [|repeat split; exists [TString ""]; split; reflexivity].
  rewrite os_date_retry_c_str, (os_date_size_mod (c_str (date_fmt p))),
    c_str_idempotent, <- os_date_size_mod.
  apply same_effect_returns_1, os_date_retry_same_effect.
Qed.

End MoreFormatter.

Lemma os_date_retry_utc (P : Platform) s stm retry :
  forall sz L,
  os_date_retry (P := utc_platform P) retry s stm sz L
  = os_date_retry (P := P) retry s stm sz L.
Proof. induction retry as [|retry IH]; intros sz L; reflexivity. Qed.

(** X13: a leading exclamation mark is the choice of [gmtime_r] and nothing
    else: the call with it does exactly what the call without it does on the
    platform whose local time is UTC.  Only one mark is taken off. *)
Theorem os_date_utc_prefix (P : Platform) t p b tr :
  date_utc p = false ->
  same_effect [TNumber t; TString (String "!" p)]
              (os_date (P := P) (mk_State [TNumber t; TString (String "!" p)] b tr))
              [TNumber t; TString p]
              (os_date (P := utc_platform P) (mk_State [TNumber t; TString p] b tr)).
Proof.
  intros Hp. rewrite !os_date_run.
  assert (Hfmt : date_fmt p = p) by (unfold date_fmt; rewrite Hp; reflexivity).
  assert (Htm : date_tm (P := utc_platform P) p t = gmtime_r (Platform := P) t)
    by (unfold date_tm; rewrite Hp; reflexivity).
  rewrite Htm, Hfmt.
  change (date_tm (P := P) (String "!" p) t) with (gmtime_r (Platform := P) t).
  change (date_fmt (String "!" p)) with p.
  destruct (gmtime_r t) as [stm|];
    [|repeat split; exists [TNil]; split; reflexivity].
  destruct (strcmp_eq p "*t");
    [repeat split; exists [TTable (calendar_record stm)]; split; reflexivity|].
  destruct (negb (Ascii.eqb (deref p) NUL));
    [|repeat split; exists [TString ""]; split; reflexivity].
  rewrite os_date_retry_utc.
  apply same_effect_returns_1, os_date_retry_same_effect.
Qed.

Section Arguments.

Context {P : Platform}.

(** X14: an instant that is neither nil nor a number nor a string that
    converts to one makes [os_date] throw the argument error for argument
    2, whatever pattern [luaL_optstring] accepted: nothing is rendered or
    pushed and the trace is as it was; the stack is as it was too, except
    that a pattern given as a number has by then been converted to its
    string in its slot.  A pattern that is a boolean, a table or another
    object makes it throw the argument error for argument 1 with the state
    unchanged. *)
Theorem os_date_argument_errors b tr :
  (forall v a,
     isnumber (Some v) = false -> v <> TNil ->
     type_of (Some a) = LUA_TNIL \/ type_of (Some a) = LUA_TNUMBER \/
     type_of (Some a) = LUA_TSTRING ->
     os_date (mk_State [v; a] b tr)
     = Throw (LJ_ERR_ARGTYPE 2 "number")
             (mk_State [v; match a with
                           | TNumber n => TString (lj_strfmt_number n)
                           | _ => a
                           end] b tr)) /\
  (forall rest v,
     type_of (Some v) <> LUA_TNIL -> type_of (Some v) <> LUA_TNUMBER ->
     type_of (Some v) <> LUA_TSTRING ->
     os_date (mk_State (rest ++ [v]) b tr)
     = Throw (LJ_ERR_ARGTYPE 1 "string") (mk_State (rest ++ [v]) b tr)).
Proof.
  split.
  - intros v a Hnum Hnil Hpat.
    assert (Hty : (type_of (Some v) <=? 0) = false).
    { destruct v as [| | | | |[]]; try reflexivity. contradiction Hnil. reflexivity. }
    assert (Hsecond : forall a' : TValue,
               luaL_opt_checknumber 2 time_NULL (mk_State [v; a'] b tr)
               = Throw (LJ_ERR_ARGTYPE 2 "number") (mk_State [v; a'] b tr)).
    { intros a'.
      unfold luaL_opt_checknumber, lua_isnoneornil, lua_type, luaL_checknumber,
        bind, get_stack, ret, throw. cbn [stack].
      change (index2adr [v; a'] 2) with (Some v). rewrite Hty. cbn [stack].
      change (index2adr [v; a'] 2) with (Some v). rewrite Hnum. reflexivity. }
    unfold os_date. rewrite ?bind_unfold.
    destruct a as [|ba|n|s|ta|[]];
      try (destruct Hpat as [H|[H|H]]; discriminate H).
    + change (luaL_optstring 1 "%c" (mk_State [v; TNil] b tr))
        with (Return "%c" (mk_State [v; TNil] b tr)).
      cbv beta iota. rewrite ?bind_unfold, Hsecond. reflexivity.
    + change (luaL_optstring 1 "%c" (mk_State [v; TNumber n] b tr))
        with (Return (lj_strfmt_number n)
                     (mk_State [v; TString (lj_strfmt_number n)] b tr)).
      cbv beta iota. rewrite ?bind_unfold, Hsecond. reflexivity.
    + change (luaL_optstring 1 "%c" (mk_State [v; TString s] b tr))
        with (Return s (mk_State [v; TString s] b tr)).
      cbv beta iota. rewrite ?bind_unfold, Hsecond. reflexivity.
  - intros rest v Hnil Hnum Hstr. unfold os_date.
    rewrite ?bind_unfold.
    unfold luaL_optstring, bind, get_stack, throw. cbn [stack].
    rewrite index2adr_bottom.
    destruct v as [|bv|n|s|tb|k];
      [contradiction Hnil | | contradiction Hnum | contradiction Hstr | | ];
      reflexivity.
Qed.

Variable difftime : Z -> Z -> Z.

(** X15: the second argument of [os_difftime] defaults to 0: with one
    number, or with a number and nil, it pushes what [difftime] answers for
    that instant and 0, exactly as the call with 0 written out does. *)
Theorem os_difftime_default_second a b tr :
  os_difftime difftime (mk_State [TNumber a] b tr)
  = Return 1 (mk_State [TNumber (difftime a 0); TNumber a] b tr) /\
  same_effect [TNumber a] (os_difftime difftime (mk_State [TNumber a] b tr))
              [TNumber 0; TNumber a]
              (os_difftime difftime (mk_State [TNumber 0; TNumber a] b tr)) /\
  same_effect [TNil; TNumber a] (os_difftime difftime (mk_State [TNil; TNumber a] b tr))
              [TNumber 0; TNumber a]
              (os_difftime difftime (mk_State [TNumber 0; TNumber a] b tr)).
Proof.
  split; [reflexivity|].
  split; repeat split; exists [TNumber (difftime a 0)]; split; reflexivity.
Qed.

(** X16: [os_difftime] needs its first argument: called without argument,
    or with a first argument that is not a number and does not convert to
    one, the second being absent or a number, it throws the argument error
    for argument 1 and pushes nothing. *)
Theorem os_difftime_first_required v b tr :
  isnumber (Some v) = false ->
  os_difftime difftime (mk_State [] b tr)
  = Throw (LJ_ERR_ARGTYPE 1 "number") (mk_State [] b tr) /\
  os_difftime difftime (mk_State [v] b tr)
  = Throw (LJ_ERR_ARGTYPE 1 "number") (mk_State [v] b tr) /\
  (forall c,
     os_difftime difftime (mk_State [TNumber c; v] b tr)
     = Throw (LJ_ERR_ARGTYPE 1 "number") (mk_State [TNumber c; v] b tr)).
Proof.
  intros Hnum. split; [reflexivity|].
  split; [|intros c]; unfold os_difftime; rewrite ?bind_unfold;
    unfold luaL_checknumber, bind, get_stack, throw; cbn [stack].
  - change (index2adr [v] 1) with (Some v). rewrite Hnum. reflexivity.
  - change (index2adr [TNumber c; v] 1) with (Some v). rewrite Hnum. reflexivity.
Qed.

End Arguments.

(** * The further properties on the reference platform *)

Lemma double_until_covers sz fuel :
  forall nsz, 0 < nsz -> sz <= nsz * 2 ^ Z.of_nat fuel ->
  sz <= Reference.double_until fuel nsz sz.
Proof.
  induction fuel as [|fuel IH]; intros nsz Hpos Hle; cbn [Reference.double_until].
  - change (2 ^ Z.of_nat 0) with 1 in Hle. lia.
  - destruct (Z.ltb_spec nsz sz) as [Hlt|Hge]; [|exact Hge].
    apply IH; [lia|].
    rewrite Nat2Z.inj_succ, Z.pow_succ_r in Hle by lia. lia.
Qed.

(** The growth policy of lj_buf.c never hands out less than is asked for. *)
Lemma buf_grow_covers c z cap :
  lj_buf_grow (Platform := Reference.platform) c z = Some cap -> z <= cap.
Proof.
  cbn [lj_buf_grow Reference.platform]. unfold Reference.buf_grow.
  assert (Hd : z <= Reference.LJ_MAX_BUF ->
               z <= Reference.double_until 32 (Z.max c Reference.LJ_MIN_SBUF) z).
  { intros Hmax. apply double_until_covers.
    - unfold Reference.LJ_MIN_SBUF. lia.
    - unfold Reference.LJ_MAX_BUF, Reference.LJ_MIN_SBUF in *.
      change (2 ^ Z.of_nat 32) with 4294967296. lia. }
  revert Hd.
  generalize (Reference.double_until 32 (Z.max c Reference.LJ_MIN_SBUF) z).
  intros d Hd.
  destruct (Z.leb_spec z c) as [Hle|Hgt]; [intros [= <-]; exact Hle|].
  destruct (Z.ltb_spec Reference.LJ_MAX_BUF z) as [|Hmax]; [discriminate|].
  intros [= <-]. apply Hd, Hmax.
Qed.

(** The record of the last second of 1969 denotes the instant -1, which
    [os_time] cannot tell from a failure of [mktime]: it returns nil. *)
Lemma os_time_instant_minus_one_is_nil :
  results (os_time (P := Reference.platform)
             (state0 [TTable (<["sec" := TNumber 59]>
                              (<["min" := TNumber 59]>
                              (<["hour" := TNumber 23]>
                              (<["day" := TNumber 31]>
                              (<["month" := TNumber 12]>
                              (<["year" := TNumber 1969]> ∅))))))])) 1
  = Some [TNil].
Proof. vm_compute. reflexivity. Qed.

Lemma os_time_without_argument_witness :
  os_time (P := Reference.platform) (mk_State [TNil] 0 [])
  = Return 1 (mk_State [TNumber 1700000000; TNil] 0 []).
Proof.
  apply (os_time_without_argument (P := Reference.platform) [TNil] 0 []).
  right. exists []. reflexivity.
Defined.

Lemma os_time_not_a_table_witness :
  os_time (P := Reference.platform) (mk_State [TNumber 5] 0 [])
  = Throw (LJ_ERR_ARGTYPE 1 "table") (mk_State [TNumber 5] 0 []).
Proof.
  apply (os_time_not_a_table (P := Reference.platform) [] (TNumber 5) 0 []);
    discriminate.
Defined.

Lemma os_time_nil_iff_minus_one_witness :
  exists L' ts,
    os_time (P := Reference.platform)
      (mk_State [TTable (<["day" := TNumber 1]>
                         (<["month" := TNumber 2]>
                         (<["year" := TNumber 2024]> ∅)))] 0 [])
    = Return 1 L' /\
    mktime_calls (trace L') = [ts] /\
    stack L' = [if mktime (Platform := Reference.platform) ts =? -1
                then TNil
                else TNumber (mktime (Platform := Reference.platform) ts);
                TTable (<["day" := TNumber 1]>
                        (<["month" := TNumber 2]>
                        (<["year" := TNumber 2024]> ∅)))].
Proof.
  destruct (os_time_nil_iff_minus_one (P := Reference.platform)
              (<["day" := TNumber 1]>
               (<["month" := TNumber 2]>
               (<["year" := TNumber 2024]> ∅))) 0 [])
    as (L' & ts & Hrun & Hcalls & Hst & _); try reflexivity.
  exists L', ts. split; [exact Hrun|]. split; [exact Hcalls | exact Hst].
Defined.

Lemma os_time_fields_reach_mktime_witness :
  exists L' ts,
    os_time (P := Reference.platform)
      (mk_State [TTable (<["day" := TNumber 29]>
                         (<["month" := TNumber 2]>
                         (<["year" := TNumber 2000]> ∅)))] 0 [])
    = Return 1 L' /\
    mktime_calls (trace L') = [ts] /\
    tm_mday ts = 29 /\ tm_mon ts = 1 /\ tm_year ts = 100.
Proof.
  destruct (os_time_fields_reach_mktime (P := Reference.platform)
              (<["day" := TNumber 29]>
               (<["month" := TNumber 2]>
               (<["year" := TNumber 2000]> ∅))) 29 2 2000 0 [])
    as (L' & ts & Hrun & Hcalls & Hd & Hm & Hy & _);
    try reflexivity; try (unfold int_range; lia).
  exists L', ts. repeat split; assumption.
Defined.

Lemma os_time_field_modulo_witness :
  observe (os_time (P := Reference.platform)
             (mk_State [TTable (<["year" := TNumber (2024 + 1 * 2 ^ 32)]>
                                (<["day" := TNumber 1]>
                                (<["month" := TNumber 2]>
                                (<["year" := TNumber 2024]> ∅))))] 0 []))
  = observe (os_time (P := Reference.platform)
               (mk_State [TTable (<["day" := TNumber 1]>
                                  (<["month" := TNumber 2]>
                                  (<["year" := TNumber 2024]> ∅)))] 0 [])).
Proof.
  apply (os_time_field_modulo (P := Reference.platform)
           (<["day" := TNumber 1]>
            (<["month" := TNumber 2]>
            (<["year" := TNumber 2024]> ∅))) "year" 2024 1 0 []).
  - do 5 apply list_elem_of_further. apply list_elem_of_here.
  - reflexivity.
  - unfold integer_range. lia.
  - unfold integer_range. lia.
Defined.

Lemma os_time_of_os_date_table_witness :
  exists r L1,
    os_date (P := Reference.platform)
      (mk_State [TNumber 951782400; TString "*t"] 0 []) = Return 1 L1 /\
    stack L1 = [TTable r; TNumber 951782400; TString "*t"] /\
    exists L2,
      os_time (P := Reference.platform) (mk_State [TTable r] 0 []) = Return 1 L2 /\
      mktime_calls (trace L2) = [mk_tm 0 0 0 29 1 100 0 0 0].
Proof.
  destruct (os_time_of_os_date_table (P := Reference.platform) 951782400 "*t" 0 []
              (mk_tm 0 0 0 29 1 100 2 59 0) eq_refl eq_refl)
    as (r & L1 & Hdate & Hst & Htime).
  - unfold tm_fits, int_range. cbn [tm_sec tm_min tm_hour tm_mday tm_mon tm_year]. lia.
  - exists r, L1. split; [exact Hdate|]. split; [exact Hst|]. exact (Htime 0 []).
Defined.

Lemma os_date_text_outcome_witness :
  match os_date (P := Reference.platform)
          (mk_State [TNumber 951782400; TString "!%Y"] 0 []) with
  | Return n L' =>
      n = 1 /\
      ((stack L' = [TNumber 951782400; TString "!%Y"] /\
        length (strftime_calls (trace L')) = (length (strftime_calls []) + 4)%nat) \/
       (exists buf cap,
          buf <> "" /\ stack L' = [TString buf; TNumber 951782400; TString "!%Y"] /\
          buf = strftime (Platform := Reference.platform) cap "%Y"
                  (mk_tm 0 0 0 29 1 100 2 59 0) /\
          last (strftime_calls (trace L')) = Some (cap, "%Y") /\
          tmpbuf L' = cap))
  | Throw e L' => e = LJ_ERR_MEM /\ stack L' = [TNumber 951782400; TString "!%Y"]
  end.
Proof.
  apply (os_date_text_outcome (P := Reference.platform) 951782400 "!%Y" 0 []
           (mk_tm 0 0 0 29 1 100 2 59 0) eq_refl); discriminate.
Defined.

Lemma os_date_attempts_fit_witness :
  exists ext,
    trace (final (os_date (P := Reference.platform)
                    (mk_State [TNumber 951782400; TString "%p"] 0 []))) = ext /\
    attempts_fit ext = true /\
    (length (strftime_calls ext) <= 4)%nat /\
    Forall (fun c => c.2 = "%p") (strftime_calls ext).
Proof.
  destruct (os_date_attempts_fit (P := Reference.platform) 951782400 "%p" 0 []
              (mk_tm 0 0 0 29 1 100 2 59 0) buf_grow_covers eq_refl)
    as (ext & Htr & Hfit & Hlen & Hall); [discriminate | discriminate |].
  exists ext. split; [exact Htr|]. split; [exact Hfit|]. split; [exact Hlen | exact Hall].
Defined.

Lemma os_date_utc_prefix_witness :
  same_effect [TNumber 951782400; TString "!%Y"]
              (os_date (P := Reference.platform)
                 (mk_State [TNumber 951782400; TString "!%Y"] 0 []))
              [TNumber 951782400; TString "%Y"]
              (os_date (P := utc_platform Reference.platform)
                 (mk_State [TNumber 951782400; TString "%Y"] 0 [])).
Proof.
  exact (os_date_utc_prefix Reference.platform 951782400 "%Y" 0 [] eq_refl).
Defined.

Lemma os_difftime_first_required_witness :
  os_difftime (P := Reference.platform) Z.sub (mk_State [TBool true] 0 [])
  = Throw (LJ_ERR_ARGTYPE 1 "number") (mk_State [TBool true] 0 []) /\
  os_difftime (P := Reference.platform) Z.sub (mk_State [TNumber 7; TBool true] 0 [])
  = Throw (LJ_ERR_ARGTYPE 1 "number") (mk_State [TNumber 7; TBool true] 0 []).
Proof.
  destruct (os_difftime_first_required (P := Reference.platform) Z.sub
              (TBool true) 0 [] eq_refl) as (_ & Hone & Htwo).
  split; [exact Hone | exact (Htwo 7)].
Defined.
